(** * RouteUtil: the convention-based route builder of [src/node-js-example.ts]

    A shallow embedding of the static class [RouteUtil] and the proofs of
    the properties its specification states.

    Modelling choices, each read off the TypeScript source:
    - JavaScript values are the inductive type [value]; strings are
      [string]; numbers are the integers a JavaScript number holds exactly
      (magnitude below 2^53) together with [NaN] and [-0], which covers
      every falsy number.
    - The Express router is the list of the routes registered on it, in
      registration order; [router[requestType](path, ...handlers)] appends.
    - Code that may throw lives in a state-and-exception monad [M]: a throw
      keeps the state reached so far, as mutation does in JavaScript.
    - The controller tree on disk is a finite tree [node]; [require] and
      [new] are read from it.
    - [change-case] is an external package: [RouteUtil] is parametrised by
      its three functions, and [ChangeCase] gives their ASCII behaviour for
      concrete examples.
    - Output on [console] and [Logger] is not modelled. *)

From Stdlib Require Import String Ascii List ZArith Bool Lia.
Import ListNotations.
Local Open Scope string_scope.
Local Open Scope list_scope.
Set Warnings "-register-all".

(* ===================================================================== *)
(** ** JavaScript values *)
(* ===================================================================== *)

Module JS.

(** [VNum] holds an integer that a JavaScript number holds exactly; a
    function is given by its source text. *)
Inductive value : Type :=
| VUndefined
| VNull
| VBool (b : bool)
| VNum (n : Z)
| VNegZero
| VNaN
| VStr (s : string)
| VFun (source : string)
| VArr (items : list value)
| VObj (fields : list (string * value)).

(** Modelled from the spec: the class [ValidationError] of
    [../errors/ValidationError] is not under [src/]; the "thrown validation
    errors" are errors that carry the message they were constructed with.
    The other constructors are the built-in errors the builder can meet and
    the values a controller may throw. *)
Inductive thrown : Type :=
| ValidationError (message : string)
| TypeError (message : string)
| FsError (code : string)
| Thrown (v : value).

(** [ToBoolean]. *)
Definition truthy (v : value) : bool :=
  match v with
  | VUndefined | VNull | VNegZero | VNaN => false
  | VBool b => b
  | VNum n => negb (n =? 0)%Z
  | VStr s => negb (s =? EmptyString)
  | VFun _ | VArr _ | VObj _ => true
  end.

(** [v === 0]: strict equality does not tell [0] from [-0]. *)
Definition is_zero (v : value) : bool :=
  match v with
  | VNum n => (n =? 0)%Z
  | VNegZero => true
  | _ => false
  end.

(** [typeof v === 'function'] and [typeof v === 'string']. *)
Definition is_function (v : value) : bool :=
  match v with VFun _ => true | _ => false end.

Definition is_string (v : value) : bool :=
  match v with VStr _ => true | _ => false end.

(** [Array.isArray]. *)
Definition isArray (v : value) : bool :=
  match v with VArr _ => true | _ => false end.

(** Own properties are an association list in [Object.keys] order; the
    first binding of a key is the property. *)
Fixpoint assoc {A : Type} (k : string) (l : list (string * A)) : option A :=
  match l with
  | [] => None
  | (k', v) :: rest => if k' =? k then Some v else assoc k rest
  end.

Definition keys {A : Type} (l : list (string * A)) : list string :=
  map fst l.

(** The properties every plain object inherits from [Object.prototype]. *)
Definition object_prototype_names : list string :=
  [ "constructor"; "__defineGetter__"; "__defineSetter__"; "hasOwnProperty";
    "__lookupGetter__"; "__lookupSetter__"; "isPrototypeOf";
    "propertyIsEnumerable"; "toString"; "valueOf"; "__proto__";
    "toLocaleString" ].

Definition mem (k : string) (l : list string) : bool :=
  existsb (String.eqb k) l.

(** A function value is identified by its source text, which is also what
    [String(f)] yields. *)
Definition native_source (name : string) : string :=
  "function " ++ name ++ "() { [native code] }".

(** What [Object.prototype] provides under the name [k]: the prototype
    object itself for [__proto__], the function [Object] for
    [constructor], the built-in method named [k] for the other names. *)
Definition inherited (k : string) : value :=
  if k =? "__proto__" then VObj []
  else if k =? "constructor" then VFun (native_source "Object")
  else if mem k object_prototype_names then VFun (native_source k)
  else VUndefined.

(** [o[k]] on a plain object with own properties [fields]: an own property,
    else what [Object.prototype] provides, else [undefined]. *)
Definition get_plain (fields : list (string * value)) (k : string) : value :=
  match assoc k fields with
  | Some v => v
  | None => inherited k
  end.

(** [Object.prototype.hasOwnProperty.call(v, k)]: the built-in method.  It
    answers from the own properties; what [v.hasOwnProperty(k)] does when
    [v] has a [hasOwnProperty] of its own is said where the call is made
    ([RouteUtil.call_hasOwnProperty]). *)
Definition hasOwnProperty (v : value) (k : string) : bool :=
  match v with
  | VObj fields => mem k (keys fields)
  | _ => false
  end.

(** [delete v[k]]. *)
Definition delete (k : string) (v : value) : value :=
  match v with
  | VObj fields => VObj (filter (fun kv => negb (fst kv =? k)) fields)
  | _ => v
  end.

(** [o[k] = v] on own properties: overwrite in place, or append. *)
Fixpoint set_prop {A : Type} (k : string) (v : A) (l : list (string * A))
  : list (string * A) :=
  match l with
  | [] => [(k, v)]
  | (k', v') :: rest =>
      if k' =? k then (k, v) :: rest else (k', v') :: set_prop k v rest
  end.

(** Decimal text of an integer, as [String(n)] prints the integers a
    number holds exactly.  (From [1e21] on [String(n)] is in exponent
    notation; such magnitudes are outside the numbers modelled, and the
    properties below that depend on a printed number say so.) *)
Fixpoint digits (fuel : nat) (n : N) (acc : string) : string :=
  match fuel with
  | O => acc
  | S fuel' =>
      let d := String (ascii_of_N (48 + N.modulo n 10)) acc in
      if (n <? 10)%N then d else digits fuel' (N.div n 10) d
  end.

Definition string_of_Z (z : Z) : string :=
  let n := Z.abs_N z in
  let body := digits (S (N.to_nat (N.log2 n))) n EmptyString in
  if (z <? 0)%Z then "-" ++ body else body.

(** The element of an array at the index that the property key [k]
    spells, counting from [i]. *)
Fixpoint at_index (k : string) (i : N) (items : list value) : option value :=
  match items with
  | [] => None
  | x :: rest =>
      if string_of_Z (Z.of_N i) =? k then Some x else at_index k (N.succ i) rest
  end.

(** [v[k]] for an arbitrary value.  An array answers for [length] and for
    its indices.  What arrays, functions and primitives inherit from their
    prototypes is not modelled: those are functions and primitives, never
    arrays, and the builder only asks such a read for a non-empty array. *)
Definition get (v : value) (k : string) : value :=
  match v with
  | VObj fields => get_plain fields k
  | VArr items =>
      if k =? "length" then VNum (Z.of_nat (length items))
      else match at_index k 0 items with
           | Some x => x
           | None => VUndefined
           end
  | _ => VUndefined
  end.

(** [Array.prototype.join(sep)]: [null] and [undefined] print as the empty
    string, every other element as [String(element)]; a nested array prints
    as its own comma join. *)
Fixpoint join_item (v : value) : string :=
  match v with
  | VUndefined | VNull => EmptyString
  | VBool true => "true"
  | VBool false => "false"
  | VNum n => string_of_Z n
  | VNegZero => "0"
  | VNaN => "NaN"
  | VStr s => s
  | VFun source => source
  | VArr items => String.concat "," (map join_item items)
  | VObj _ => "[object Object]"
  end.

Definition join (sep : string) (items : list value) : string :=
  String.concat sep (map join_item items).

(** *** JSON: what [JSON.stringify] puts on the wire *)








End JS.

(* ===================================================================== *)
(** ** The string operations [RouteUtil] uses *)
(* ===================================================================== *)

Module Str.

(** [s.split(sep)[0]]: the characters before the first [sep], the whole
    string when there is none. *)
Fixpoint first_segment (sep : ascii) (s : string) : string :=
  match s with
  | EmptyString => EmptyString
  | String c rest =>
      if Ascii.eqb c sep then EmptyString else String c (first_segment sep rest)
  end.

Fixpoint drop (n : nat) (s : string) : string :=
  match n, s with
  | O, _ => s
  | S n', String _ rest => drop n' rest
  | S _, EmptyString => EmptyString
  end.

(** [s.replace(pat, rep)] with a string pattern: the first occurrence only.
    [rep] is inserted as it is (the builder passes the empty string, which
    has no [$] patterns). *)
Fixpoint replace_first (pat rep s : string) : string :=
  if String.prefix pat s then rep ++ drop (String.length pat) s
  else match s with
       | EmptyString => EmptyString
       | String c rest => String c (replace_first pat rep rest)
       end.

(** [s] with the leading [pre] removed, when [s] starts with [pre]. *)
Definition remove_leading (pre s : string) : string :=
  if String.prefix pre s then drop (String.length pre) s else s.

Fixpoint occurs (c : ascii) (s : string) : bool :=
  match s with
  | EmptyString => false
  | String c' rest => Ascii.eqb c' c || occurs c rest
  end.

End Str.

(* ===================================================================== *)
(** ** [change-case] on ASCII text *)
(* ===================================================================== *)

(** The package is an external dependency.  This module gives what its
    [snakeCase], [camelCase] and [upperCaseFirst] compute on ASCII input:
    split at lower-to-upper and at acronym boundaries, turn every run of
    other characters into one separator (none at the ends), lower-case. *)
Module ChangeCase.

Definition between (lo hi : nat) (c : ascii) : bool :=
  (lo <=? nat_of_ascii c)%nat && (nat_of_ascii c <=? hi)%nat.

Definition is_upper : ascii -> bool := between 65 90.
Definition is_lower : ascii -> bool := between 97 122.
Definition is_digit : ascii -> bool := between 48 57.
Definition is_word (c : ascii) : bool := is_upper c || is_lower c || is_digit c.

Definition lower (c : ascii) : ascii :=
  if is_upper c then ascii_of_nat (nat_of_ascii c + 32) else c.

Definition upper (c : ascii) : ascii :=
  if is_lower c then ascii_of_nat (nat_of_ascii c - 32) else c.

Fixpoint map_chars (f : ascii -> ascii) (s : string) : string :=
  match s with
  | EmptyString => EmptyString
  | String c rest => String (f c) (map_chars f rest)
  end.

(** ["camelCase" -> "camel Case"]. *)
Fixpoint split_camel (s : string) : string :=
  match s with
  | EmptyString => EmptyString
  | String c1 rest =>
      match rest with
      | String c2 _ =>
          if (is_lower c1 || is_digit c1) && is_upper c2
          then String c1 (String " " (split_camel rest))
          else String c1 (split_camel rest)
      | EmptyString => String c1 EmptyString
      end
  end.

(** ["CAMELCase" -> "CAMEL Case"]. *)
Fixpoint split_upper (s : string) : string :=
  match s with
  | EmptyString => EmptyString
  | String c1 rest =>
      match rest with
      | String c2 (String c3 _) =>
          if is_upper c1 && is_upper c2 && is_lower c3
          then String c1 (String " " (split_upper rest))
          else String c1 (split_upper rest)
      | _ => String c1 (split_upper rest)
      end
  end.

(** The maximal runs of word characters. *)
Fixpoint words_from (cur s : string) : list string :=
  match s with
  | EmptyString => if cur =? EmptyString then [] else [cur]
  | String c rest =>
      if is_word c then words_from (cur ++ String c EmptyString) rest
      else if cur =? EmptyString then words_from EmptyString rest
      else cur :: words_from EmptyString rest
  end.

Definition noCase (sep s : string) : string :=
  map_chars lower (String.concat sep (words_from EmptyString (split_upper (split_camel s)))).

Definition snakeCase (s : string) : string := noCase "_" s.

Definition upperCaseFirst (s : string) : string :=
  match s with
  | EmptyString => EmptyString
  | String c rest => String (upper c) rest
  end.

(** After the first word, a word starting with a digit is glued with an
    underscore, any other word is capitalised. *)
Definition glue (w : string) : string :=
  match w with
  | EmptyString => EmptyString
  | String c _ => if is_digit c then "_" ++ w else upperCaseFirst w
  end.

Definition camelCase (s : string) : string :=
  match words_from EmptyString (split_upper (split_camel s)) with
  | [] => EmptyString
  | w :: ws => String.concat EmptyString (map_chars lower w :: map (fun x => glue (map_chars lower x)) ws)
  end.

End ChangeCase.

(* ===================================================================== *)
(** ** State and exceptions *)
(* ===================================================================== *)

Module Monad.
Import JS.

(** A computation over a mutable state [S] that returns an [A] or throws. *)
Definition M (S A : Type) : Type := S -> (A + thrown) * S.

Definition ret {S A : Type} (a : A) : M S A := fun st => (inl a, st).

Definition bind {S A B : Type} (m : M S A) (k : A -> M S B) : M S B :=
  fun st =>
    match m st with
    | (inl a, st') => k a st'
    | (inr e, st') => (inr e, st')
    end.

Definition throw {S A : Type} (e : thrown) : M S A := fun st => (inr e, st).

(** [try { body } catch (e) { handler(e) }]. *)
Definition try_catch {S A : Type} (body : M S A) (handler : thrown -> M S A)
  : M S A :=
  fun st =>
    match body st with
    | (inl a, st') => (inl a, st')
    | (inr e, st') => handler e st'
    end.

Definition gets {S A : Type} (f : S -> A) : M S A := fun st => (inl (f st), st).

Definition modify {S : Type} (f : S -> S) : M S unit := fun st => (inl tt, f st).

(** [for (const x of l) body(x)]. *)
Fixpoint for_each {S A : Type} (body : A -> M S unit) (l : list A) : M S unit :=
  match l with
  | [] => ret tt
  | x :: rest => bind (body x) (fun _ => for_each body rest)
  end.

End Monad.

Declare Scope route_scope.
Notation "x <- m ;; k" := (Monad.bind m (fun x => k))
  (at level 100, m at next level, right associativity) : route_scope.
Notation "m ;;; k" := (Monad.bind m (fun _ => k))
  (at level 100, right associativity) : route_scope.

(* ===================================================================== *)
(** ** The router, the controllers on disk, and a request in flight *)
(* ===================================================================== *)

Module Model.
Import JS.

(** A controller instance: its own enumerable properties. *)
Definition controller : Type := list (string * value).

(** What [router[verb](path, ...handlers)] is handed after the path. *)
Inductive handler : Type :=
| Middleware (f : value)
| ErrorChecker
| ControllerMethod (c : controller) (methodName : string).

Record route : Type := mkRoute {
  verb : string;
  path : string;
  handlers : list handler
}.

(** The state the builder mutates: the router, and the static table
    [RouteUtil.middlewaresMapped]. *)
Record state : Type := mkState {
  routes : list route;
  middlewaresMapped : list (string * value)
}.

(** The controller folder on disk.  A file is what [require] makes of it:
    [None] when loading throws, else its exports, each export name bound
    to the instance [new] builds from it.  [Dir] is a directory, or a link
    that leads to one.  [Other] is any entry that [lstat] does not call a
    file and that cannot be listed: a link to a file (which [require]
    follows), a dangling link, a socket, a FIFO; [code] is the error
    [readdirSync] answers with ([ENOTDIR], [ENOENT]). *)
Inductive node : Type :=
| File (exports : option (list (string * controller)))
| Dir (entries : list (string * node))
| Other (exports : option (list (string * controller))) (code : string).

(** The class [MiddlewareService]: the function itself and its own
    property names with their values. *)
Record class : Type := mkClass {
  self : value;
  statics : list (string * value)
}.

(** One entry of [validationResult(req).array()]. *)
Record validation_error : Type := mkError {
  param : string;
  msg : string
}.

Record request : Type := mkRequest {
  validation_errors : list validation_error
}.

(** The response object and the [next] callback of one request:
    [res.statusCode], the bodies handed to [res.json], and the arguments
    [next] was called with ([None] for [next()]). *)
Record ctx : Type := mkCtx {
  statusCode : Z;
  sent : list value;
  next_calls : list (option thrown)
}.

End Model.

(* ===================================================================== *)
(** ** [RouteUtil] *)
(* ===================================================================== *)

Module RouteUtil.
Import JS Monad Model.
Local Open Scope route_scope.

Definition predefinedRoutes : list (string * value) :=
  [ ("list", VStr "get");
    ("create", VStr "post");
    ("update", VStr "patch");
    ("destroy", VStr "delete");
    ("show", VStr "get") ].

Definition acceptedMethods : list string :=
  ["get"; "post"; "patch"; "put"; "delete"].

Definition routeWithParams : list string := ["update"; "destroy"; "show"].

Definition ignoredKeys : list string :=
  ["routeMiddlewares"; "routeValidation"; "routeParams"].

(** Modelled from the spec: [./globalConsts] is not under [src/]; its
    [variableType.FUNCTION] and [variableType.STRING] are compared with
    [typeof], to tell the methods of a controller ("an object exposing
    methods") and middleware names, so they are the [typeof] tags. *)
Definition typeof_is_FUNCTION : value -> bool := is_function.
Definition typeof_is_STRING : value -> bool := is_string.

Definition isFile (source : node) : bool :=
  match source with File _ => true | Dir _ | Other _ _ => false end.

(** *** Serving a request *)

Definition next (arg : option thrown) : M ctx unit :=
  modify (fun res => mkCtx (statusCode res) (sent res) (next_calls res ++ [arg])).

Definition errorChecker (req : request) : M ctx unit :=
  match validation_errors req with
  | [] => next None
  | error :: _ => throw (ValidationError (param error ++ " " ++ msg error))
  end.

Section Handler.

(** [f.call(this, ...args)] for a function [f] that a result carries as a
    property, [f] given by its source: what the call does to the response
    and to [next], and the value it returns or throws. *)
Variable call_function : string -> value -> list value -> M ctx value.

(** [controller[methodName](req, res, next)] awaited: what the method does
    to the response and to [next], and the value it returns or throws. *)
Variable call_method : controller -> string -> request -> M ctx value.

(** [result.hasOwnProperty(k)]: the method is looked up on the result.  An
    object with a [hasOwnProperty] of its own answers through it when it
    is a function, and the call throws when it is not; every other value
    reaches the built-in method. *)
Definition call_hasOwnProperty (result : value) (k : string) : M ctx value :=
  match result with
  | VObj fields =>
      match assoc "hasOwnProperty" fields with
      | None => ret (VBool (hasOwnProperty result k))
      | Some (VFun f) => call_function f result [VStr k]
      | Some _ => throw (TypeError "result.hasOwnProperty is not a function")
      end
  | _ => ret (VBool (hasOwnProperty result k))
  end.

(** [resultSend].  [res.json(body)] is the hand-over of the body to the
    framework: [sent] records it; what the framework then makes of the
    body is outside the model. *)
Definition resultSend (result : value) : M ctx unit :=
  owns <- (if truthy result
           then (answer <- call_hasOwnProperty result "password" ;;
                 ret (truthy answer))
           else ret false) ;;
  let result := if owns then delete "password" result else result in
  fun res =>
    if (statusCode res =? 200)%Z
    then (inl tt, mkCtx (statusCode res) (sent res ++ [result]) (next_calls res))
    else (inl tt, res).

Definition getControllerMethod (c : controller) (methodName : string)
    (req : request) : M ctx unit :=
  try_catch
    (result <- call_method c methodName req ;;
     if negb (truthy result) && negb (is_zero result)
     then resultSend (VStr "ok")
     else resultSend result)
    (fun e => next (Some e)).

End Handler.

(** *** Building the routes *)

Definition addValidation (middlewares : list handler) (methodName : string)
    (c : controller) : list handler :=
  let validation := get (VObj c) "validation" in
  if truthy validation && truthy (get validation methodName)
     && isArray (get validation methodName)
     && truthy (get (get validation methodName) "length")
  then middlewares ++ [Middleware (get validation methodName); ErrorChecker]
  else middlewares.

Definition getDefaultRoutePath (controllerPath methodName paramName : string)
  : string :=
  if negb (mem methodName routeWithParams) then controllerPath
  else controllerPath ++ "/:" ++ paramName.

Definition array_items (v : value) : list value :=
  match v with VArr items => items | _ => [] end.

(** The middlewares one [middlewareItem] contributes: itself when it is a
    function, the mapped function when it is a known name, nothing (and a
    warning in the log) otherwise. *)
Definition routeMiddleware (mapped : list (string * value)) (middlewareItem : value)
  : list handler :=
  if typeof_is_FUNCTION middlewareItem then [Middleware middlewareItem]
  else if typeof_is_STRING middlewareItem then
    let name := join_item middlewareItem in
    if truthy (get_plain mapped name) && typeof_is_FUNCTION (get_plain mapped name)
    then [Middleware (get_plain mapped name)]
    else []
  else [].

Definition getRouteMiddlewares (mapped : list (string * value))
    (methodName : string) (c : controller) : list handler :=
  let declared := get (VObj c) "middlewares" in
  let middlewares :=
    if truthy declared && truthy (get declared methodName)
       && isArray (get declared methodName)
       && truthy (get (get declared methodName) "length")
    then flat_map (routeMiddleware mapped) (array_items (get declared methodName))
    else [] in
  addValidation middlewares methodName c.

(** [router[requestType](path, ...handlers)].  The router has a method for
    each HTTP verb the builder can name; any other key, and any key that is
    not a string, finds no function and the call throws.  The router keeps
    the handlers as they come: what Express itself checks about them is
    outside the model. *)
Definition router_methods : list string :=
  ["get"; "post"; "put"; "patch"; "delete"].

Definition router_call (requestType : value) (path : string)
    (handlers : list handler) : M state unit :=
  match requestType with
  | VStr v =>
      if mem v router_methods
      then modify (fun st =>
             mkState (routes st ++ [mkRoute v path handlers]) (middlewaresMapped st))
      else throw (TypeError "router[requestType] is not a function")
  | _ => throw (TypeError "router[requestType] is not a function")
  end.

Definition buildDefaultRoute (c : controller) (apiPath methodName paramName : string)
  : M state unit :=
  let requestType := get_plain predefinedRoutes methodName in
  let path := getDefaultRoutePath apiPath methodName paramName in
  mapped <- gets middlewaresMapped ;;
  router_call requestType path
    (getRouteMiddlewares mapped methodName c ++ [ControllerMethod c methodName]).

Definition getMiddlewaresMapped (MiddlewareService : class) : M state unit :=
  for_each
    (fun name =>
       let method := get_plain (statics MiddlewareService) name in
       if negb (is_function method) then ret tt
       else match method, self MiddlewareService with
            | VFun f, VFun g =>
                if f =? g then ret tt
                else modify (fun st =>
                       mkState (routes st) (set_prop name method (middlewaresMapped st)))
            | _, _ =>
                modify (fun st =>
                  mkState (routes st) (set_prop name method (middlewaresMapped st)))
            end)
    (keys (statics MiddlewareService)).

Section Conventions.

(** The three functions of [change-case] the builder calls. *)
Variables snakeCase camelCase upperCaseFirst : string -> string.

Definition getCustomRouteRequestType (methodName : string) : string :=
  Str.first_segment "_" (snakeCase methodName).

Definition checkIsRouteMethod (methodName : string) : bool :=
  mem (getCustomRouteRequestType methodName) acceptedMethods.

Definition getCustomRoutePath (c : controller)
    (controllerPath methodName requestType : string) : string :=
  let controllerPath :=
    (controllerPath ++ "/"
       ++ Str.replace_first (requestType ++ "_") EmptyString (snakeCase methodName))%string in
  let params := get (VObj c) "params" in
  if truthy params && truthy (get params methodName)
     && isArray (get params methodName)
     && truthy (get (get params methodName) "length")
  then controllerPath ++ "/:" ++ join "/:" (array_items (get params methodName))
  else controllerPath.

Definition buildCustomRoute (c : controller) (controllerPath methodName : string)
  : M state unit :=
  let requestType := getCustomRouteRequestType methodName in
  let path := getCustomRoutePath c controllerPath methodName requestType in
  mapped <- gets middlewaresMapped ;;
  router_call (VStr requestType) path
    (getRouteMiddlewares mapped methodName c ++ [ControllerMethod c methodName]).

(** [require] of a file of the folder: its exports, or [None] when the
    call throws (no such file, or a file that fails to load). *)
Definition require (entries : list (string * node)) (fileName : string)
  : option (list (string * controller)) :=
  match assoc fileName entries with
  | Some (File exports) => exports
  | Some (Other exports _) => exports
  | _ => None
  end.

Definition methodNames (c : controller) : list string :=
  filter (fun methodName =>
            negb (mem methodName ignoredKeys)
            && typeof_is_FUNCTION (get (VObj c) methodName))
         (keys c).

(** The part of [buildController] that follows the construction of the
    controller: the custom routes first, the predefined routes second. *)
Definition buildControllerRoutes (c : controller) (folderName apiPath : string)
  : M state unit :=
  let paramName := (camelCase folderName ++ "Id")%string in
  let methodNames := methodNames c in
  for_each (fun methodName =>
              if checkIsRouteMethod methodName
              then buildCustomRoute c apiPath methodName
              else ret tt) methodNames ;;;
  for_each (fun methodName =>
              if truthy (get_plain predefinedRoutes methodName)
              then buildDefaultRoute c apiPath methodName paramName
              else ret tt) methodNames.

(** [buildController] and, inlined as [scan], the loop of
    [buildSubFolderRoutes] over the entries of the folder.  A path that is
    not a directory cannot be listed: [readdirSync] throws. *)
Fixpoint buildController (folderName : string) (controllerPath : node)
    (apiPath : string) {struct controllerPath} : M state unit :=
  let className := (upperCaseFirst (camelCase folderName) ++ "Controller")%string in
  let apiPath := (apiPath ++ "/" ++ folderName)%string in
  match controllerPath with
  | File _ => throw (FsError "ENOTDIR")
  | Other _ code => throw (FsError code)
  | Dir entries =>
      match require entries (className ++ ".ts") with
      | None =>
          (fix scan (controllerFolders : list (string * node)) : M state unit :=
             match controllerFolders with
             | [] => ret tt
             | (name, child) :: rest =>
                 if isFile child then scan rest
                 else (buildController name child apiPath ;;; scan rest)
             end) entries
      | Some controllerData =>
          match assoc className controllerData with
          | None => throw (TypeError "controllerData[className] is not a constructor")
          | Some c => buildControllerRoutes c folderName apiPath
          end
      end
  end.

(** The loop of [buildSubFolderRoutes] over what [readdirSync] lists. *)
Fixpoint buildFolders (controllerFolders : list (string * node)) (apiPath : string)
  : M state unit :=
  match controllerFolders with
  | [] => ret tt
  | (folderName, controllerPath) :: rest =>
      if isFile controllerPath then buildFolders rest apiPath
      else (buildController folderName controllerPath apiPath ;;;
            buildFolders rest apiPath)
  end.

Definition buildSubFolderRoutes (controllerFolderPath : node) (apiPath : string)
  : M state unit :=
  match controllerFolderPath with
  | File _ => throw (FsError "ENOTDIR")
  | Other _ code => throw (FsError code)
  | Dir controllerFolders => buildFolders controllerFolders apiPath
  end.

Definition build (MiddlewareService : class) (defaultControllerFolderPath : node)
    (defaultApiPath : string) : M state unit :=
  getMiddlewaresMapped MiddlewareService ;;;
  buildSubFolderRoutes defaultControllerFolderPath defaultApiPath.

End Conventions.

End RouteUtil.

(* ===================================================================== *)
(** ** What the properties talk about *)
(* ===================================================================== *)

Module Registered.
Import JS Monad Model RouteUtil.

(** The route [buildCustomRoute] hands to the router for a method. *)
Definition customRoute (snakeCase : string -> string)
    (mapped : list (string * value)) (c : controller)
    (controllerPath methodName : string) : route :=
  let requestType := getCustomRouteRequestType snakeCase methodName in
  mkRoute requestType
    (getCustomRoutePath snakeCase c controllerPath methodName requestType)
    (getRouteMiddlewares mapped methodName c ++ [ControllerMethod c methodName]).

(** The route [buildDefaultRoute] hands to the router for a method, under
    the verb [requestType]. *)
Definition defaultRoute (mapped : list (string * value)) (c : controller)
    (apiPath paramName methodName requestType : string) : route :=
  mkRoute requestType
    (getDefaultRoutePath apiPath methodName paramName)
    (getRouteMiddlewares mapped methodName c ++ [ControllerMethod c methodName]).

(** The fixed mapping of the predefined method names. *)
Definition predefinedVerbs : list (string * string) :=
  [ ("list", "get"); ("create", "post"); ("update", "patch");
    ("destroy", "delete"); ("show", "get") ].



(** The [/:param] segments of the parameters a controller declares for a
    method ([controller.params[methodName]]), in declaration order. *)
Definition paramSegments (c : controller) (methodName : string) : string :=
  String.concat EmptyString
    (map (fun p => "/:" ++ join_item p)%string
         (array_items (get (get (VObj c) "params") methodName))).

(** [st'] is [st] with more routes registered after the ones it had, each
    of them satisfying [P], and with the same middleware table. *)
Definition extends (P : route -> Prop) (st st' : state) : Prop :=
  middlewaresMapped st' = middlewaresMapped st
  /\ exists added, routes st' = routes st ++ added /\ Forall P added.

(** A route under one of the verbs of the router, at a path that starts
    with [base]. *)
Definition below (base : string) (r : route) : Prop :=
  In (verb r) router_methods /\ String.prefix base (path r) = true.

(** A route that serves a method of [c]: its handlers are the middlewares
    of the method followed by the wrapped method. *)
Definition route_of (mapped : list (string * value)) (c : controller) (r : route)
  : Prop :=
  exists methodName,
    In methodName (methodNames c)
    /\ handlers r
       = getRouteMiddlewares mapped methodName c ++ [ControllerMethod c methodName].

(** The static properties of [MiddlewareService] that go into the
    middleware table: the functions, the class itself apart. *)
Definition adopted (MiddlewareService : class) (name : string) : bool :=
  let method := get_plain (statics MiddlewareService) name in
  is_function method
  && negb (match method, self MiddlewareService with
           | VFun f, VFun g => (f =? g)%string
           | _, _ => false
           end).

(** The handler a declared middleware stands for: a function stands for
    itself, a name for the function the middleware table yields under it;
    anything else, and a name that yields no function, stands for
    nothing. *)
Definition declared_handler (mapped : list (string * value)) (item : value)
  : list handler :=
  match item with
  | VFun _ => [Middleware item]
  | VStr name =>
      match get_plain mapped name with
      | VFun f => [Middleware (VFun f)]
      | _ => []
      end
  | _ => []
  end.

(** The validation part of the handlers: the declared array and the error
    checker, when the array is not empty. *)
Definition validation_handlers (c : controller) (methodName : string)
  : list handler :=
  match get (get (VObj c) "validation") methodName with
  | VArr (first :: others) => [Middleware (VArr (first :: others)); ErrorChecker]
  | _ => []
  end.


End Registered.

(* ===================================================================== *)
(** ** Sample controllers and requests *)
(* ===================================================================== *)

Module Examples.
Import JS Monad Model RouteUtil.

(** A router with no route yet and an empty middleware table. *)
Definition fresh : state := mkState [] [].

(** The folder of a controller: [<folderName>/<ClassName>.ts] exporting the
    class [ClassName], whose instances are [c]. *)
Definition folder (className : string) (c : controller) : node :=
  Dir [ ((className ++ ".ts")%string, File (Some [(className, c)])) ].

Definition build_in (folderName : string) (source : node) : (unit + thrown) * state :=
  buildController ChangeCase.snakeCase ChangeCase.camelCase ChangeCase.upperCaseFirst
    folderName source "/api" fresh.

(** [UsersController] with the five predefined methods, two custom routes
    (one with declared parameters) and a helper that is no route. *)
Definition users : controller :=
  [ ("list", VFun "list"); ("create", VFun "create"); ("update", VFun "update");
    ("destroy", VFun "destroy"); ("show", VFun "show");
    ("getProfile", VFun "getProfile"); ("postAvatarImage", VFun "postAvatarImage");
    ("findUser", VFun "findUser");
    ("params", VObj [("getProfile", VArr [VStr "userId"; VStr "section"])]) ].


(** A controller whose only method is [show]. *)
Definition show_only : controller := [ ("show", VFun "show") ].

(** A namespace folder: no [AdminController.ts], a plain file, and the
    users folder below it. *)
Definition admin : node :=
  Dir [ ("README.md", File None); ("users", folder "UsersController" show_only) ].

(** A controller method that returns [result] and touches nothing. *)
Definition returns (result : value)
  : controller -> string -> request -> M ctx value :=
  fun _ _ _ => ret result.

(** A controller method that throws [e]. *)
Definition throws (e : thrown)
  : controller -> string -> request -> M ctx value :=
  fun _ _ _ => throw e.


(** A response on which nothing has happened yet. *)
Definition untouched : ctx := mkCtx 200 [] [].

Definition no_request : request := mkRequest [].

Definition invalid_request : request :=
  mkRequest [ mkError "email" "is not valid"; mkError "name" "is required" ].

(** A controller with a method named like an inherited property, ahead of
    a predefined one. *)
Definition shadowing : controller :=
  [ ("toString", VFun "toString"); ("list", VFun "list") ].


(** [MiddlewareService] with two static functions, beside the properties
    every class has. *)
Definition services : class :=
  mkClass (VFun "class MiddlewareService")
    [ ("length", VNum 0); ("name", VStr "MiddlewareService");
      ("prototype", VObj []);
      ("auth", VFun "auth"); ("admin", VFun "admin") ].

(** A controller that declares middlewares and a validation chain. *)
Definition guarded : controller :=
  [ ("create", VFun "create"); ("getReport", VFun "getReport");
    ("middlewares",
     VObj [ ("create", VArr [VStr "auth"; VFun "inline"; VStr "unknown"; VNum 3]) ]);
    ("validation", VObj [ ("create", VArr [VFun "checkBody"]) ]) ].

(** A folder with a link to a file among its entries. *)
Definition linked : node :=
  Dir [ ("current", Other None "ENOTDIR");
        ("users", folder "UsersController" show_only) ].

(** A folder whose controller file exports nothing under the expected
    name, with a sub-folder that would load. *)
Definition misnamed : node :=
  Dir [ ("UsersController.ts", File (Some [("Users", show_only)]));
        ("admins", folder "AdminsController" show_only) ].

(** A folder that holds plain files only. *)
Definition notes : node :=
  Dir [ ("README.md", File None); ("helpers.ts", File (Some [])) ].

(** A controller folder with a sub-folder that has a controller too. *)
Definition users_with_subfolder : node :=
  Dir [ ("UsersController.ts", File (Some [("UsersController", users)]));
        ("admins", folder "AdminsController" show_only) ].

(** Results carry no function of their own in the samples: a call of one
    returns [undefined]. *)
Definition no_function : string -> value -> list value -> M ctx value :=
  fun _ _ _ => ret VUndefined.

(** The own [hasOwnProperty] of a result answers [false] to every
    question. *)
Definition denies : string -> value -> list value -> M ctx value :=
  fun _ _ _ => ret (VBool false).

(** A record with a [hasOwnProperty] function of its own. *)
Definition guarded_record : value :=
  VObj [ ("hasOwnProperty", VFun "() => false"); ("password", VStr "secret") ].


(** A record whose [hasOwnProperty] is a field of the data, not a
    function. *)
Definition shadowed : value :=
  VObj [ ("hasOwnProperty", VBool true); ("password", VStr "secret") ].

(** A controller that names inherited properties as middlewares. *)
Definition borrowing : controller :=
  [ ("list", VFun "list");
    ("middlewares", VObj [("list", VArr [VStr "toString"; VStr "constructor"])]) ].

(** A controller method that sends a body itself and returns nothing. *)
Definition sends_itself
  : controller -> string -> request -> M ctx value :=
  fun _ _ _ res =>
    (inl VUndefined, mkCtx 201 (sent res ++ [VStr "created"]) (next_calls res)).

End Examples.

(* ===================================================================== *)
(** ** Properties *)
(* ===================================================================== *)

Import JS Monad Model RouteUtil Registered Examples.
Local Open Scope route_scope.

Section Properties.

Variables snakeCase camelCase upperCaseFirst : string -> string.

(** *** Strings *)

Lemma prefix_cons (c d : ascii) (p s : string) :
  String.prefix (String c p) (String d s) = Ascii.eqb c d && String.prefix p s.
Proof.
  simpl. destruct (Ascii.ascii_dec c d) as [->|ne].
  - now rewrite Ascii.eqb_refl.
  - apply Ascii.eqb_neq in ne. now rewrite ne.
Qed.

(** A pattern that ends the first segment with the separator cannot occur
    in a string without separator. *)
Lemma prefix_needs_separator (sep : ascii) (p s : string) :
  Str.occurs sep s = false ->
  String.prefix (p ++ String sep EmptyString) s = false.
Proof.
  revert s. induction p as [|c p IH]; intros [|d s] H; simpl in *; try reflexivity.
  - destruct (Ascii.ascii_dec sep d) as [->|ne]; [|reflexivity].
    now rewrite Ascii.eqb_refl in H.
  - destruct (Ascii.ascii_dec c d) as [->|ne]; [|reflexivity].
    apply IH. now apply orb_false_iff in H.
Qed.

Lemma replace_first_absent (sep : ascii) (p s : string) :
  Str.occurs sep s = false ->
  Str.replace_first (p ++ String sep EmptyString) EmptyString s = s.
Proof.
  induction s as [|d s IH]; intros H.
  - cbn [Str.replace_first]. now rewrite (prefix_needs_separator sep p _ H).
  - cbn [Str.replace_first]. rewrite (prefix_needs_separator sep p _ H).
    f_equal. apply IH. simpl in H. now apply orb_false_iff in H.
Qed.

(** Either the string has no separator and is its own first segment, or it
    starts with the first segment followed by the separator. *)
Lemma first_segment_cases (sep : ascii) (s : string) :
  (Str.occurs sep s = false /\ Str.first_segment sep s = s)
  \/ String.prefix (Str.first_segment sep s ++ String sep EmptyString) s = true.
Proof.
  induction s as [|d s IH]; simpl.
  - now left.
  - destruct (Ascii.eqb d sep) eqn:E.
    + right. simpl. apply Ascii.eqb_eq in E. subst d.
      destruct (Ascii.ascii_dec sep sep) as [_|ne]; [|congruence].
      now destruct s.
    + destruct IH as [[H1 H2]|H].
      * left. simpl. now rewrite H1, H2.
      * right. simpl. destruct (Ascii.ascii_dec d d) as [_|ne]; [exact H|congruence].
Qed.

(** [snake.replace(`${verb}_`, '')] removes exactly a leading [verb_]. *)
Lemma replace_first_segment (sep : ascii) (s : string) :
  let pat := (Str.first_segment sep s ++ String sep EmptyString)%string in
  Str.replace_first pat EmptyString s = Str.remove_leading pat s.
Proof.
  intros pat. unfold Str.remove_leading.
  destruct (first_segment_cases sep s) as [[H1 H2]|H].
  - unfold pat. rewrite (prefix_needs_separator sep _ _ H1).
    now apply replace_first_absent.
  - fold pat in H. destruct s as [|d s]; cbn [Str.replace_first]; now rewrite H.
Qed.

Lemma concat_cons (sep x : string) (l : list string) :
  l <> [] -> String.concat sep (x :: l) = (x ++ sep ++ String.concat sep l)%string.
Proof. destruct l; [congruence | reflexivity]. Qed.

Lemma append_assoc (a b c : string) : ((a ++ b) ++ c = a ++ (b ++ c))%string.
Proof. induction a; simpl; congruence. Qed.

(** [`/:${items.join('/:')}`] spells one [/:item] segment per item. *)
Lemma join_segments (items : list value) :
  items <> [] ->
  ("/:" ++ join "/:" items)%string
  = String.concat EmptyString (map (fun p => "/:" ++ join_item p)%string items).
Proof.
  unfold join. induction items as [|x [|y rest] IH]; intros H.
  - congruence.
  - reflexivity.
  - assert (IH' := IH ltac:(discriminate)). clear IH.
    change (map join_item (x :: y :: rest))
      with (join_item x :: map join_item (y :: rest)).
    change (map (fun p => "/:" ++ join_item p)%string (x :: y :: rest))
      with (("/:" ++ join_item x)%string
              :: map (fun p => "/:" ++ join_item p)%string (y :: rest)).
    rewrite !concat_cons by (simpl; discriminate).
    rewrite <- IH'. now rewrite append_assoc.
Qed.

Lemma append_nil_r (s : string) : (s ++ EmptyString)%string = s.
Proof. induction s; simpl; congruence. Qed.

(** *** The four-part test on a declaration table *)

(** [t && t[k] && Array.isArray(t[k]) && t[k].length] holds exactly when
    [t[k]] is a non-empty array. *)
Lemma declares_nonempty_array (t : value) (k : string) :
  truthy t && truthy (get t k) && isArray (get t k)
    && truthy (get (get t k) "length")
  = match get t k with VArr (_ :: _) => true | _ => false end.
Proof.
  destruct (get t k) as [| |b|n| | |s|f|items|fs] eqn:G;
    try (cbn [isArray]; now rewrite ?andb_false_r).
  assert (T : truthy t = true).
  { destruct t; try discriminate; reflexivity. }
  rewrite T. now destruct items.
Qed.

(** *** The path of a custom route *)

Lemma getCustomRoutePath_segments (c : controller) (controllerPath methodName : string) :
  let requestType := getCustomRouteRequestType snakeCase methodName in
  getCustomRoutePath snakeCase c controllerPath methodName requestType
  = (controllerPath ++ "/"
       ++ Str.remove_leading (requestType ++ "_") (snakeCase methodName)
       ++ paramSegments c methodName)%string.
Proof.
  intros requestType. unfold getCustomRoutePath, paramSegments.
  unfold requestType, getCustomRouteRequestType.
  rewrite (replace_first_segment "_" (snakeCase methodName)).
  set (base := Str.remove_leading _ _).
  rewrite declares_nonempty_array.
  destruct (get (get (VObj c) "params") methodName) as [| | | | | | | |[|x items]|];
    try (simpl; now rewrite append_nil_r).
  cbn [array_items]. rewrite <- join_segments by discriminate.
  now rewrite !append_assoc.
Qed.

(** *** Registering one route *)

Lemma accepted_is_router_method (v : string) :
  mem v acceptedMethods = true -> mem v router_methods = true.
Proof.
  unfold mem, acceptedMethods, router_methods. simpl.
  destruct (v =? "get")%string, (v =? "post")%string, (v =? "patch")%string,
    (v =? "put")%string, (v =? "delete")%string; simpl; congruence.
Qed.


Lemma router_call_registers (v path : string) (hs : list handler) (st : state) :
  mem v router_methods = true ->
  router_call (VStr v) path hs st
  = (inl tt, mkState (routes st ++ [mkRoute v path hs]) (middlewaresMapped st)).
Proof. intros H. unfold router_call. now rewrite H. Qed.

Lemma buildCustomRoute_registers (c : controller) (controllerPath methodName : string)
    (st : state) :
  checkIsRouteMethod snakeCase methodName = true ->
  buildCustomRoute snakeCase c controllerPath methodName st
  = (inl tt,
     mkState (routes st
                ++ [customRoute snakeCase (middlewaresMapped st) c controllerPath methodName])
             (middlewaresMapped st)).
Proof.
  intros H. unfold buildCustomRoute, bind, gets.
  now rewrite router_call_registers by now apply accepted_is_router_method.
Qed.

(** The table [predefinedRoutes] of the source holds exactly the fixed
    mapping, each verb being a method of the router. *)
Lemma predefinedRoutes_own (methodName requestType : string) :
  In (methodName, requestType) predefinedVerbs ->
  assoc methodName predefinedRoutes = Some (VStr requestType)
  /\ mem requestType router_methods = true
  /\ truthy (VStr requestType) = true.
Proof.
  unfold predefinedVerbs. simpl.
  intros [H|[H|[H|[H|[H|[]]]]]]; injection H as <- <-; repeat split; reflexivity.
Qed.

Lemma predefinedRoutes_lookup (methodName : string) (v : value) :
  assoc methodName predefinedRoutes = Some v ->
  exists requestType, v = VStr requestType
                      /\ In (methodName, requestType) predefinedVerbs.
Proof.
  unfold predefinedRoutes, predefinedVerbs. cbn [assoc].
  repeat match goal with
         | |- context [if (?k =? methodName)%string then _ else _] =>
             destruct (String.eqb_spec k methodName) as [<-|_]
         end; intros H; try discriminate; injection H as <-;
    eexists; split; try reflexivity; simpl; tauto.
Qed.

Lemma predefinedVerbs_lookup (methodName : string) :
  assoc methodName predefinedRoutes = None <-> assoc methodName predefinedVerbs = None.
Proof.
  unfold predefinedRoutes, predefinedVerbs. cbn [assoc].
  repeat match goal with
         | |- context [if (?k =? methodName)%string then _ else _] =>
             destruct (String.eqb_spec k methodName) as [<-|_]
         end; split; intros H; try discriminate; reflexivity.
Qed.

Lemma buildDefaultRoute_registers (c : controller)
    (apiPath methodName paramName requestType : string) (st : state) :
  In (methodName, requestType) predefinedVerbs ->
  buildDefaultRoute c apiPath methodName paramName st
  = (inl tt,
     mkState (routes st
                ++ [defaultRoute (middlewaresMapped st) c apiPath paramName
                      methodName requestType])
             (middlewaresMapped st)).
Proof.
  intros H. destruct (predefinedRoutes_own _ _ H) as (Hown & Hrouter & _).
  unfold buildDefaultRoute, bind, gets, get_plain. rewrite Hown.
  now rewrite router_call_registers.
Qed.


(** *** The two loops of [buildController] *)


(** One turn of the second loop: the method is predefined and its route is
    registered; or its name means nothing to [predefinedRoutes] and the turn
    does nothing; or its name is one every object inherits, the lookup
    yields a function (an object for [__proto__]) instead of a verb, and
    the call on the router throws. *)
Lemma default_turn (c : controller) (apiPath paramName methodName : string)
    (st : state) :
  let turn :=
    (if truthy (get_plain predefinedRoutes methodName)
     then buildDefaultRoute c apiPath methodName paramName
     else ret tt) st in
  (exists requestType,
      In (methodName, requestType) predefinedVerbs
      /\ turn = (inl tt,
                 mkState (routes st
                            ++ [defaultRoute (middlewaresMapped st) c apiPath
                                  paramName methodName requestType])
                         (middlewaresMapped st)))
  \/ (assoc methodName predefinedVerbs = None
      /\ mem methodName object_prototype_names = false
      /\ turn = (inl tt, st))
  \/ (assoc methodName predefinedVerbs = None
      /\ mem methodName object_prototype_names = true
      /\ turn = (inr (TypeError "router[requestType] is not a function"), st)).
Proof.
  intros turn. subst turn.
  destruct (assoc methodName predefinedRoutes) as [v|] eqn:A.
  - left. destruct (predefinedRoutes_lookup _ _ A) as (requestType & -> & Hin).
    exists requestType. split; [exact Hin|].
    destruct (predefinedRoutes_own _ _ Hin) as (_ & _ & T).
    unfold get_plain at 1. rewrite A, T.
    now apply buildDefaultRoute_registers.
  - right. assert (N := proj1 (predefinedVerbs_lookup methodName) A).
    unfold buildDefaultRoute, get_plain, inherited. rewrite A.
    destruct (mem methodName object_prototype_names) eqn:P.
    + right. repeat split; try assumption.
      now destruct (methodName =? "__proto__")%string,
                   (methodName =? "constructor")%string.
    + left. repeat split; try assumption.
      destruct (String.eqb_spec methodName "__proto__") as [->|_];
        [discriminate P|].
      destruct (String.eqb_spec methodName "constructor") as [->|_];
        [discriminate P | reflexivity].
Qed.



(** *** The handlers of a route *)




(** *** A controller that loads *)

Lemma buildController_loaded (folderName : string) (entries : list (string * node))
    (controllerData : list (string * controller)) (c : controller) (apiPath : string) :
  let className := (upperCaseFirst (camelCase folderName) ++ "Controller")%string in
  require entries (className ++ ".ts") = Some controllerData ->
  assoc className controllerData = Some c ->
  buildController snakeCase camelCase upperCaseFirst folderName (Dir entries) apiPath
  = buildControllerRoutes snakeCase camelCase c folderName (apiPath ++ "/" ++ folderName).
Proof.
  intros className H1 H2. cbn [buildController]. fold className.
  now rewrite H1, H2.
Qed.



Lemma mem_In (k : string) (l : list string) : mem k l = true <-> In k l.
Proof.
  unfold mem. rewrite existsb_exists. split.
  - intros (x & Hx & E). apply String.eqb_eq in E. now subst.
  - intros H. exists k. split; [exact H | apply String.eqb_refl].
Qed.



(** *** The routes of a controller *)



(** C5. For every custom route, the registered sub-path is the controller
    path followed by the snake_case of the method name with the leading
    verb prefix (verb plus underscore) removed, and then one [/:param]
    segment for each parameter name the controller declares for that
    method, in declaration order. *)
Theorem custom_route_sub_path
    (c : controller) (controllerPath methodName : string) (names : list string)
    (st : state) :
  In (Str.first_segment "_" (snakeCase methodName))
     ["get"; "post"; "patch"; "put"; "delete"] ->
  array_items (get (get (VObj c) "params") methodName) = map VStr names ->
  let requestType := Str.first_segment "_" (snakeCase methodName) in
  buildCustomRoute snakeCase c controllerPath methodName st
  = (inl tt,
     mkState
       (routes st
          ++ [mkRoute requestType
                (controllerPath ++ "/"
                   ++ Str.remove_leading (requestType ++ "_") (snakeCase methodName)
                   ++ String.concat EmptyString
                        (map (fun name => "/:" ++ name)%string names))
                (getRouteMiddlewares (middlewaresMapped st) methodName c
                   ++ [ControllerMethod c methodName])])
       (middlewaresMapped st)).
Proof.
  intros Hverb Hnames requestType.
  rewrite buildCustomRoute_registers by now apply mem_In.
  unfold customRoute. rewrite getCustomRoutePath_segments.
  unfold paramSegments. rewrite Hnames, map_map. reflexivity.
Qed.

(** *** Folders without a controller *)

Lemma buildFolders_for_each (entries : list (string * node)) (apiPath : string) :
  buildFolders snakeCase camelCase upperCaseFirst entries apiPath
  = for_each (fun entry =>
                buildController snakeCase camelCase upperCaseFirst
                  (fst entry) (snd entry) apiPath)
             (filter (fun entry => negb (isFile (snd entry))) entries).
Proof.
  induction entries as [|[name child] rest IH]; cbn [buildFolders filter for_each].
  - reflexivity.
  - cbn [fst snd]. destruct (isFile child); cbn [negb for_each]; now rewrite IH.
Qed.

(** C10. For every folder whose controller module
    [<PascalCaseFolderName>Controller.ts] fails to load, the builder treats
    the folder as a namespace rather than failing: it appends the folder
    name to the API path and scans the folder's subdirectories for
    controllers with that path, skipping the entries that are plain files. *)
Theorem unloadable_folder_is_namespace
    (folderName : string) (entries : list (string * node)) (apiPath : string) :
  require entries (upperCaseFirst (camelCase folderName) ++ "Controller" ++ ".ts")
  = None ->
  buildController snakeCase camelCase upperCaseFirst folderName (Dir entries) apiPath
  = buildSubFolderRoutes snakeCase camelCase upperCaseFirst (Dir entries)
      (apiPath ++ "/" ++ folderName)
  /\ buildSubFolderRoutes snakeCase camelCase upperCaseFirst (Dir entries)
       (apiPath ++ "/" ++ folderName)
     = for_each (fun entry =>
                   buildController snakeCase camelCase upperCaseFirst
                     (fst entry) (snd entry) (apiPath ++ "/" ++ folderName))
                (filter (fun entry => negb (isFile (snd entry))) entries).
Proof.
  intros Hreq. split.
  - cbn [buildController buildSubFolderRoutes].
    rewrite append_assoc. cbn [append] in Hreq |- *. rewrite Hreq. clear Hreq.
    generalize (apiPath ++ String "/" folderName)%string. intros p.
    induction entries as [|[name child] rest IH]; [reflexivity|].
    cbn [buildFolders]. destruct (isFile child); [exact IH|].
    now rewrite <- IH.
  - cbn [buildSubFolderRoutes]. apply buildFolders_for_each.
Qed.

(** *** The response adapter *)




Lemma ctx_eta (res : ctx) :
  mkCtx (statusCode res) (sent res) (next_calls res) = res.
Proof. now destruct res. Qed.

Lemma assoc_absent {A : Type} (k : string) (l : list (string * A)) :
  mem k (keys l) = false -> assoc k l = None.
Proof.
  unfold mem, keys. induction l as [|[x v] l IH]; [reflexivity|].
  cbn [map fst existsb assoc]. rewrite (String.eqb_sym k x).
  destruct (x =? k)%string; [discriminate | exact IH].
Qed.

(** A value without a [hasOwnProperty] of its own reaches the built-in
    method, which answers from the own properties and touches nothing. *)
Lemma call_hasOwnProperty_inherited
    (call_function : string -> value -> list value -> M ctx value)
    (result : value) (k : string) (res : ctx) :
  hasOwnProperty result "hasOwnProperty" = false ->
  call_hasOwnProperty call_function result k res
  = (inl (VBool (hasOwnProperty result k)), res).
Proof.
  intros H. destruct result; try reflexivity.
  cbn [call_hasOwnProperty]. cbn [hasOwnProperty] in H.
  now rewrite (assoc_absent _ _ H).
Qed.

Lemma resultSend_inherited
    (call_function : string -> value -> list value -> M ctx value)
    (result : value) (res : ctx) :
  hasOwnProperty result "hasOwnProperty" = false ->
  resultSend call_function result res
  = (inl tt,
     mkCtx (statusCode res)
           (sent res
              ++ (if (statusCode res =? 200)%Z
                  then [if truthy result && hasOwnProperty result "password"
                        then delete "password" result else result]
                  else []))
           (next_calls res)).
Proof.
  intros H. unfold resultSend, bind.
  destruct (truthy result); cbn [andb].
  - rewrite (call_hasOwnProperty_inherited _ _ _ _ H). unfold ret. cbn [truthy].
    destruct (statusCode res =? 200)%Z; [reflexivity|].
    now rewrite app_nil_r, ctx_eta.
  - unfold ret. destruct (statusCode res =? 200)%Z; [reflexivity|].
    now rewrite app_nil_r, ctx_eta.
Qed.



(** *** The wrapped handler *)

Lemma getControllerMethod_returned
    (call_function : string -> value -> list value -> M ctx value)
    (call_method : controller -> string -> request -> M ctx value)
    (c : controller) (methodName : string)
    (req : request) (res res1 : ctx) (result : value) :
  call_method c methodName req res = (inl result, res1) ->
  getControllerMethod call_function call_method c methodName req res
  = try_catch
      (resultSend call_function
         (if negb (truthy result) && negb (is_zero result)
          then VStr "ok" else result))
      (fun e => next (Some e)) res1.
Proof.
  intros H. unfold getControllerMethod, try_catch, bind. rewrite H.
  now destruct (negb (truthy result) && negb (is_zero result)).
Qed.

Lemma try_catch_returns {A : Type} (body : M ctx A) (handler : thrown -> M ctx A)
    (res res' : ctx) (a : A) :
  body res = (inl a, res') -> try_catch body handler res = (inl a, res').
Proof. intros H. unfold try_catch. now rewrite H. Qed.

(** C6, amended. Whenever the controller method invoked through the
    wrapped handler returns a falsy result other than the number 0, the
    body handed to the response adapter is the string 'ok'; a result of 0
    is handed over as it is. *)
Theorem falsy_result_defaults_to_ok_except_zero
    (call_function : string -> value -> list value -> M ctx value)
    (call_method : controller -> string -> request -> M ctx value)
    (c : controller)
    (methodName : string) (req : request) (res res1 : ctx) (result : value) :
  call_method c methodName req res = (inl result, res1) ->
  truthy result = false ->
  getControllerMethod call_function call_method c methodName req res
  = resultSend call_function (if is_zero result then result else VStr "ok") res1.
Proof.
  intros H F. rewrite (getControllerMethod_returned _ _ _ _ _ _ _ _ H), F.
  cbn [negb andb].
  assert (P : hasOwnProperty (if is_zero result then result else VStr "ok")
                "hasOwnProperty" = false)
    by (destruct (is_zero result); [now destruct result | reflexivity]).
  replace (if negb (is_zero result) then VStr "ok" else result)
    with (if is_zero result then result else VStr "ok")
    by now destruct (is_zero result).
  rewrite (resultSend_inherited _ _ _ P). apply try_catch_returns.
  now apply resultSend_inherited.
Qed.

(** C7. If the controller method invoked through the wrapped handler
    throws (or its promise rejects), the error is caught and passed to
    [next]; the wrapper itself does not throw and sends no response. *)
Theorem thrown_error_goes_to_next
    (call_function : string -> value -> list value -> M ctx value)
    (call_method : controller -> string -> request -> M ctx value)
    (c : controller)
    (methodName : string) (req : request) (res res1 : ctx) (e : thrown) :
  call_method c methodName req res = (inr e, res1) ->
  getControllerMethod call_function call_method c methodName req res
  = (inl tt, mkCtx (statusCode res1) (sent res1) (next_calls res1 ++ [Some e])).
Proof.
  intros H. unfold getControllerMethod, try_catch, bind. now rewrite H.
Qed.


(** *** The validation error checker *)

(** C9. The error checker throws a [ValidationError], whose message is the
    first validation error's param and msg joined by a space, if and only
    if the validation result of the request holds at least one error; with
    no error it calls [next()] and throws nothing. *)
Theorem errorChecker_throws_iff_errors (req : request) (res : ctx) :
  ((exists e, fst (errorChecker req res) = inr e) <-> validation_errors req <> [])
  /\ (forall error rest,
        validation_errors req = error :: rest ->
        errorChecker req res
        = (inr (ValidationError (param error ++ " " ++ msg error)), res))
  /\ (validation_errors req = [] ->
      errorChecker req res
      = (inl tt, mkCtx (statusCode res) (sent res) (next_calls res ++ [None]))).
Proof.
  unfold errorChecker. destruct (validation_errors req) as [|error rest].
  - repeat split; try discriminate; try congruence.
    intros (e & He). discriminate He.
  - repeat split; try discriminate.
    + intros _. now eexists.
    + intros x y E. now injection E as <- <-.
Qed.

(** *** Routes are only ever added *)

Lemma extends_refl (P : route -> Prop) (st : state) : extends P st st.
Proof.
  split; [reflexivity|]. exists []. split; [now rewrite app_nil_r | constructor].
Qed.

Lemma extends_trans (P : route -> Prop) (st1 st2 st3 : state) :
  extends P st1 st2 -> extends P st2 st3 -> extends P st1 st3.
Proof.
  intros (M1 & a1 & R1 & F1) (M2 & a2 & R2 & F2). split; [congruence|].
  exists (a1 ++ a2). split.
  - now rewrite R2, R1, app_assoc.
  - apply Forall_app. now split.
Qed.

Lemma extends_weaken (P Q : route -> Prop) (st st' : state) :
  (forall r, P r -> Q r) -> extends P st st' -> extends Q st st'.
Proof.
  intros H (M1 & a & R & F). split; [exact M1|]. exists a. split; [exact R|].
  revert F. apply Forall_impl. exact H.
Qed.

(** A sequence extends the state when both of its parts do, also when the
    first part throws and the second never runs. *)
Lemma extends_bind {A B : Type} (P : route -> Prop) (m : M state A)
    (k : A -> M state B) (st : state) :
  extends P st (snd (m st)) ->
  (forall a st1, extends P st1 (snd (k a st1))) ->
  extends P st (snd (bind m k st)).
Proof.
  intros Hm Hk. unfold bind. destruct (m st) as [[a|e] st1]; cbn [snd] in *.
  - eapply extends_trans; [exact Hm | apply Hk].
  - exact Hm.
Qed.

Lemma extends_for_each {A : Type} (P : route -> Prop) (body : A -> M state unit)
    (l : list A) :
  (forall x st, In x l -> extends P st (snd (body x st))) ->
  forall st, extends P st (snd (for_each body l st)).
Proof.
  induction l as [|x l IH]; intros Hbody st; cbn [for_each].
  - apply extends_refl.
  - apply extends_bind.
    + apply Hbody. now left.
    + intros _ st1. apply IH. intros y st2 Hy. apply Hbody. now right.
Qed.

Lemma extends_one (P : route -> Prop) (st : state) (r : route) :
  P r -> extends P st (mkState (routes st ++ [r]) (middlewaresMapped st)).
Proof.
  intros H. split; [reflexivity|]. exists [r]. split; [reflexivity|].
  now constructor.
Qed.

(** *** Paths *)

Lemma prefix_append (a b : string) : String.prefix a (a ++ b) = true.
Proof.
  induction a as [|c a IH]; simpl.
  - now destruct b.
  - destruct (Ascii.ascii_dec c c) as [_|ne]; [exact IH | congruence].
Qed.

Lemma prefix_split (a s : string) :
  String.prefix a s = true -> exists t, s = (a ++ t)%string.
Proof.
  revert s. induction a as [|c a IH]; intros s H.
  - now exists s.
  - destruct s as [|d s]; [discriminate H|]. simpl in H.
    destruct (Ascii.ascii_dec c d) as [->|ne]; [|discriminate H].
    destruct (IH s H) as (t & ->). now exists t.
Qed.

Lemma prefix_trans (a b c : string) :
  String.prefix a b = true -> String.prefix b c = true -> String.prefix a c = true.
Proof.
  intros H1 H2. apply prefix_split in H1, H2.
  destruct H1 as (t1 & ->). destruct H2 as (t2 & ->).
  rewrite append_assoc. apply prefix_append.
Qed.

Lemma prefix_refl (a : string) : String.prefix a a = true.
Proof. rewrite <- (append_nil_r a) at 2. apply prefix_append. Qed.

Lemma below_deeper (base tail : string) (r : route) :
  below (base ++ tail) r -> below base r.
Proof.
  intros [Hv Hp]. split; [exact Hv|].
  eapply prefix_trans; [apply prefix_append | exact Hp].
Qed.

(** *** What one controller adds *)

Lemma customRoute_below (mapped : list (string * value)) (c : controller)
    (controllerPath methodName : string) :
  checkIsRouteMethod snakeCase methodName = true ->
  below controllerPath (customRoute snakeCase mapped c controllerPath methodName).
Proof.
  intros H. split; cbn [customRoute verb path].
  - apply mem_In. now apply accepted_is_router_method.
  - rewrite getCustomRoutePath_segments. apply prefix_append.
Qed.

Lemma defaultRoute_below (mapped : list (string * value)) (c : controller)
    (apiPath paramName methodName requestType : string) :
  In (methodName, requestType) predefinedVerbs ->
  below apiPath (defaultRoute mapped c apiPath paramName methodName requestType).
Proof.
  intros H. split; cbn [defaultRoute verb path].
  - apply mem_In. now destruct (predefinedRoutes_own _ _ H) as (_ & Hr & _).
  - unfold getDefaultRoutePath.
    destruct (negb (mem methodName routeWithParams));
      [apply prefix_refl | apply prefix_append].
Qed.

(** Whatever its method names, and also when it throws on the way, a
    controller only adds routes: routes of its own methods, below its
    path. *)
Lemma buildControllerRoutes_extends (c : controller) (folderName apiPath : string)
    (st : state) :
  extends (fun r => below apiPath r /\ route_of (middlewaresMapped st) c r) st
    (snd (buildControllerRoutes snakeCase camelCase c folderName apiPath st)).
Proof.
  unfold buildControllerRoutes.
  set (P := fun r => below apiPath r /\ route_of (middlewaresMapped st) c r).
  assert (Hcustom : forall m st1, In m (methodNames c) ->
            middlewaresMapped st1 = middlewaresMapped st ->
            extends P st1
              (snd ((if checkIsRouteMethod snakeCase m
                     then buildCustomRoute snakeCase c apiPath m else ret tt) st1))).
  { intros m st1 Hm Hmap. destruct (checkIsRouteMethod snakeCase m) eqn:E.
    - rewrite buildCustomRoute_registers by exact E. cbn [snd].
      apply extends_one. split; [now apply customRoute_below|].
      exists m. split; [exact Hm|]. now rewrite Hmap.
    - apply extends_refl. }
  assert (Hdefault : forall m st1, In m (methodNames c) ->
            middlewaresMapped st1 = middlewaresMapped st ->
            extends P st1
              (snd ((if truthy (get_plain predefinedRoutes m)
                     then buildDefaultRoute c apiPath m (camelCase folderName ++ "Id")
                     else ret tt) st1))).
  { intros m st1 Hm Hmap.
    destruct (default_turn c apiPath (camelCase folderName ++ "Id") m st1)
      as [(v & Hin & ->)|[(_ & _ & ->)|(_ & _ & ->)]]; cbn [snd];
      try apply extends_refl.
    apply extends_one. split; [now apply defaultRoute_below|].
    exists m. split; [exact Hm|]. now rewrite Hmap. }
  assert (Hloop : forall (body : string -> M state unit) l,
            (forall m st1, In m l -> middlewaresMapped st1 = middlewaresMapped st ->
                           extends P st1 (snd (body m st1))) ->
            forall st1, middlewaresMapped st1 = middlewaresMapped st ->
                        extends P st1 (snd (for_each body l st1))).
  { intros body l. induction l as [|m l IH]; intros Hbody st1 Hmap; cbn [for_each].
    - apply extends_refl.
    - unfold bind. pose proof (Hbody m st1 (or_introl eq_refl) Hmap) as H1.
      destruct (body m st1) as [[u|e] st2]; cbn [snd] in *; [|exact H1].
      eapply extends_trans; [exact H1|]. apply IH.
      + intros y st3 Hy. apply Hbody. now right.
      + destruct H1 as [H1 _]. congruence. }
  unfold bind.
  pose proof (Hloop _ (methodNames c) Hcustom st eq_refl) as H1.
  destruct (for_each _ (methodNames c) st) as [[u|e] st1] eqn:E1 in H1 |- *;
    cbn [snd] in *; [|exact H1].
  eapply extends_trans; [exact H1|].
  apply (Hloop _ (methodNames c) Hdefault). now destruct H1.
Qed.


(** *** The controller tree *)

(** Induction on the tree of folders: a folder is reached through the
    entries of its parent. *)
Lemma node_induction (P : node -> Prop) :
  (forall exports, P (File exports)) ->
  (forall entries, Forall (fun entry => P (snd entry)) entries -> P (Dir entries)) ->
  (forall exports code, P (Other exports code)) ->
  forall source, P source.
Proof.
  intros HF HD HO. fix IH 1. intros [exports|entries|exports code].
  - apply HF.
  - apply HD. induction entries as [|[name child] rest IHrest].
    + constructor.
    + constructor; [apply IH | exact IHrest].
  - apply HO.
Qed.

Lemma buildController_unloadable (folderName : string)
    (entries : list (string * node)) (apiPath : string) :
  require entries (upperCaseFirst (camelCase folderName) ++ "Controller" ++ ".ts")
  = None ->
  buildController snakeCase camelCase upperCaseFirst folderName (Dir entries) apiPath
  = buildFolders snakeCase camelCase upperCaseFirst entries (apiPath ++ "/" ++ folderName).
Proof.
  intros Hreq. cbn [buildController].
  rewrite append_assoc. cbn [append] in Hreq |- *. rewrite Hreq. clear Hreq.
  generalize (apiPath ++ String "/" folderName)%string. intros p.
  induction entries as [|[name child] rest IH]; [reflexivity|].
  cbn [buildFolders]. destruct (isFile child); [exact IH|]. now rewrite <- IH.
Qed.

Lemma buildController_export_missing (folderName : string)
    (entries : list (string * node)) (controllerData : list (string * controller))
    (apiPath : string) (st : state) :
  require entries (upperCaseFirst (camelCase folderName) ++ "Controller" ++ ".ts")
  = Some controllerData ->
  assoc (upperCaseFirst (camelCase folderName) ++ "Controller") controllerData = None ->
  buildController snakeCase camelCase upperCaseFirst folderName (Dir entries) apiPath st
  = (inr (TypeError "controllerData[className] is not a constructor"), st).
Proof.
  intros Hreq Hnew. cbn [buildController].
  rewrite append_assoc. cbn [append] in Hreq |- *. now rewrite Hreq, Hnew.
Qed.

(** The three ways a folder is built. *)
Lemma buildController_cases (folderName : string) (entries : list (string * node))
    (apiPath : string) :
  (require entries (upperCaseFirst (camelCase folderName) ++ "Controller" ++ ".ts")
   = None
   /\ buildController snakeCase camelCase upperCaseFirst folderName (Dir entries) apiPath
      = buildFolders snakeCase camelCase upperCaseFirst entries
          (apiPath ++ "/" ++ folderName))
  \/ (exists controllerData,
        require entries (upperCaseFirst (camelCase folderName) ++ "Controller" ++ ".ts")
        = Some controllerData
        /\ assoc (upperCaseFirst (camelCase folderName) ++ "Controller") controllerData
           = None
        /\ forall st,
             buildController snakeCase camelCase upperCaseFirst folderName
               (Dir entries) apiPath st
             = (inr (TypeError "controllerData[className] is not a constructor"), st))
  \/ (exists controllerData c,
        require entries (upperCaseFirst (camelCase folderName) ++ "Controller" ++ ".ts")
        = Some controllerData
        /\ assoc (upperCaseFirst (camelCase folderName) ++ "Controller") controllerData
           = Some c
        /\ buildController snakeCase camelCase upperCaseFirst folderName
             (Dir entries) apiPath
           = buildControllerRoutes snakeCase camelCase c folderName
               (apiPath ++ "/" ++ folderName)).
Proof.
  destruct (require entries
              (upperCaseFirst (camelCase folderName) ++ "Controller" ++ ".ts"))
    as [controllerData|] eqn:Hreq.
  - destruct (assoc (upperCaseFirst (camelCase folderName) ++ "Controller")
                controllerData) as [c|] eqn:Hnew.
    + right. right. exists controllerData, c. repeat split; try assumption.
      apply (buildController_loaded folderName entries controllerData c apiPath);
        [now rewrite append_assoc | exact Hnew].
    + right. left. exists controllerData. repeat split; try assumption.
      intros st.
      apply (buildController_export_missing folderName entries controllerData);
        assumption.
  - left. split; [reflexivity|]. now apply buildController_unloadable.
Qed.

(** A folder and everything below it only add routes, all of them below
    the path of the folder. *)
Lemma buildController_extends (source : node) :
  forall folderName apiPath st,
    extends (below (apiPath ++ "/" ++ folderName)) st
      (snd (buildController snakeCase camelCase upperCaseFirst folderName source
              apiPath st)).
Proof.
  induction source as [exports|entries IH|exports code] using node_induction;
    intros folderName apiPath st; [apply extends_refl| |apply extends_refl].
  - destruct (buildController_cases folderName entries apiPath)
      as [(_ & ->)|[(d & _ & _ & ->)|(d & c & _ & _ & ->)]].
    + generalize (apiPath ++ "/" ++ folderName)%string. intros p. revert st.
      induction IH as [|[name child] rest Hchild _ IHrest]; intros st;
        cbn [buildFolders].
      * apply extends_refl.
      * destruct (isFile child); [apply IHrest|].
        apply extends_bind; [|intros _ st1; apply IHrest].
        eapply extends_weaken; [|apply Hchild].
        intros r. apply below_deeper.
    + apply extends_refl.
    + eapply extends_weaken; [|apply buildControllerRoutes_extends].
      now intros r [H _].
Qed.

Lemma buildFolders_extends (entries : list (string * node)) (apiPath : string) :
  forall st,
    extends (below (apiPath ++ "/")) st
      (snd (buildFolders snakeCase camelCase upperCaseFirst entries apiPath st)).
Proof.
  induction entries as [|[name child] rest IH]; intros st; cbn [buildFolders].
  - apply extends_refl.
  - destruct (isFile child); [apply IH|].
    apply extends_bind; [|intros _ st1; apply IH].
    eapply extends_weaken; [|apply buildController_extends].
    intros r H. apply (below_deeper (apiPath ++ "/") name).
    now rewrite append_assoc.
Qed.


(** X1. Building a folder never removes, reorders or changes a route the
    router already has and never touches the middleware table, also when it
    stops with a throw; every route it adds is under one of the verbs get,
    post, put, patch, delete, at a path that starts with the API path
    followed by the folder name. *)
Theorem folder_routes_are_added_below_its_path (source : node)
    (folderName apiPath : string) (st : state) :
  let st' :=
    snd (buildController snakeCase camelCase upperCaseFirst folderName source
           apiPath st) in
  middlewaresMapped st' = middlewaresMapped st
  /\ exists added,
      routes st' = routes st ++ added
      /\ forall r, In r added ->
           In (verb r) ["get"; "post"; "put"; "patch"; "delete"]
           /\ String.prefix (apiPath ++ "/" ++ folderName) (path r) = true.
Proof.
  destruct (buildController_extends source folderName apiPath st)
    as (Hm & added & Hr & Hall).
  split; [exact Hm|]. exists added. split; [exact Hr|].
  intros r Hin. exact (proj1 (Forall_forall _ _) Hall r Hin).
Qed.

(** X3. A folder that holds plain files only is listed without a throw and
    leaves the router and the middleware table as they are. *)
Theorem folder_of_files_registers_nothing (entries : list (string * node))
    (apiPath : string) (st : state) :
  Forall (fun entry => isFile (snd entry) = true) entries ->
  buildSubFolderRoutes snakeCase camelCase upperCaseFirst (Dir entries) apiPath st
  = (inl tt, st).
Proof.
  intros H. cbn [buildSubFolderRoutes].
  induction H as [|[name child] rest Hfile _ IH]; cbn [buildFolders].
  - reflexivity.
  - cbn [snd] in Hfile. now rewrite Hfile.
Qed.

Lemma methodNames_spec (c : controller) (methodName : string) :
  In methodName (methodNames c)
  <-> In methodName (keys c)
      /\ ~ In methodName ignoredKeys
      /\ is_function (get (VObj c) methodName) = true.
Proof.
  unfold methodNames. rewrite filter_In, andb_true_iff, negb_true_iff.
  unfold typeof_is_FUNCTION.
  pose proof (mem_In methodName ignoredKeys) as I.
  destruct (mem methodName ignoredKeys); split; intros (H1 & H2 & H3);
    repeat split; try assumption; try discriminate.
  - elim H2. now apply I.
  - intros H. apply I in H. discriminate H.
Qed.

(** X4. Where the controller of a folder loads, every route the builder
    adds serves a method of that controller: an own property that holds a
    function and is not one of the ignored keys.  The sub-folders of such a
    folder are not scanned. *)
Theorem loaded_controller_adds_its_methods_only
    (folderName : string) (entries : list (string * node))
    (controllerData : list (string * controller)) (c : controller)
    (apiPath : string) (st : state) :
  require entries (upperCaseFirst (camelCase folderName) ++ "Controller" ++ ".ts")
  = Some controllerData ->
  assoc (upperCaseFirst (camelCase folderName) ++ "Controller") controllerData
  = Some c ->
  exists added,
    routes (snd (buildController snakeCase camelCase upperCaseFirst folderName
                   (Dir entries) apiPath st))
    = routes st ++ added
    /\ forall r, In r added ->
         exists methodName,
           In methodName (keys c)
           /\ is_function (get (VObj c) methodName) = true
           /\ ~ In methodName ["routeMiddlewares"; "routeValidation"; "routeParams"]
           /\ handlers r
              = getRouteMiddlewares (middlewaresMapped st) methodName c
                  ++ [ControllerMethod c methodName].
Proof.
  intros Hreq Hnew.
  rewrite (buildController_loaded folderName entries controllerData c apiPath)
    by (try rewrite append_assoc; assumption).
  destruct (buildControllerRoutes_extends c folderName (apiPath ++ "/" ++ folderName) st)
    as (_ & added & Hr & Hall).
  exists added. split; [exact Hr|]. intros r Hin.
  destruct (proj1 (Forall_forall _ _) Hall r Hin) as (_ & m & Hm & Hh).
  apply methodNames_spec in Hm. destruct Hm as (Hk & Hi & Hf).
  exists m. repeat split; assumption.
Qed.

(** X5. A controller module that loads but does not export the class named
    after the folder stops the build with a [TypeError]; nothing is
    registered for the folder, and its sub-folders are not scanned. *)
Theorem missing_export_stops_the_build (folderName : string)
    (entries : list (string * node)) (controllerData : list (string * controller))
    (apiPath : string) (st : state) :
  require entries (upperCaseFirst (camelCase folderName) ++ "Controller" ++ ".ts")
  = Some controllerData ->
  assoc (upperCaseFirst (camelCase folderName) ++ "Controller") controllerData = None ->
  buildController snakeCase camelCase upperCaseFirst folderName (Dir entries) apiPath st
  = (inr (TypeError "controllerData[className] is not a constructor"), st).
Proof.
  intros Hreq Hnew.
  apply (buildController_export_missing folderName entries controllerData);
    assumption.
Qed.




(** *** The middleware table *)

Lemma assoc_set_prop {A : Type} (k k' : string) (v : A) (l : list (string * A)) :
  assoc k' (set_prop k v l) = if (k =? k')%string then Some v else assoc k' l.
Proof.
  induction l as [|[x w] l IH]; cbn [set_prop assoc].
  - reflexivity.
  - destruct (String.eqb_spec x k) as [->|nx]; cbn [assoc].
    + now destruct (String.eqb_spec k k').
    + rewrite IH. destruct (String.eqb_spec x k') as [->|_]; [|reflexivity].
      destruct (String.eqb_spec k k') as [->|_]; [congruence | reflexivity].
Qed.

Lemma adopted_spec (MiddlewareService : class) (name : string) :
  adopted MiddlewareService name = true
  <-> is_function (get_plain (statics MiddlewareService) name) = true
      /\ get_plain (statics MiddlewareService) name <> self MiddlewareService.
Proof.
  unfold adopted. cbv zeta.
  destruct (get_plain (statics MiddlewareService) name) as [| | | | | | |f| |];
    cbn [is_function andb]; try (split; [discriminate | intros [H _]; discriminate H]).
  destruct (self MiddlewareService) as [| | | | | | |g| |]; cbn [negb];
    try (split; [intros _; split; [reflexivity | discriminate] | reflexivity]).
  destruct (String.eqb_spec f g) as [->|ne]; cbn [negb]; split.
  - discriminate.
  - intros [_ H]. now elim H.
  - intros _. split; [reflexivity | congruence].
  - reflexivity.
Qed.

(** One turn of the loop of [getMiddlewaresMapped]. *)
Lemma adopt_turn (MiddlewareService : class) (name : string) (st : state) :
  (let method := get_plain (statics MiddlewareService) name in
   if negb (is_function method) then ret tt
   else match method, self MiddlewareService with
        | VFun f, VFun g =>
            if (f =? g)%string then ret tt
            else modify (fun st =>
                   mkState (routes st) (set_prop name method (middlewaresMapped st)))
        | _, _ =>
            modify (fun st =>
              mkState (routes st) (set_prop name method (middlewaresMapped st)))
        end) st
  = (inl tt,
     if adopted MiddlewareService name
     then mkState (routes st)
            (set_prop name (get_plain (statics MiddlewareService) name)
               (middlewaresMapped st))
     else st).
Proof.
  unfold adopted. cbv zeta.
  destruct (get_plain (statics MiddlewareService) name) as [| | | | | | |f| |];
    try reflexivity.
  cbn [is_function negb andb].
  destruct (self MiddlewareService) as [| | | | | | |g| |]; try reflexivity.
  now destruct (f =? g)%string.
Qed.

Lemma middlewaresMapped_after (MiddlewareService : class) (l : list string)
    (st : state) :
  let result :=
    for_each
      (fun name =>
         let method := get_plain (statics MiddlewareService) name in
         if negb (is_function method) then ret tt
         else match method, self MiddlewareService with
              | VFun f, VFun g =>
                  if (f =? g)%string then ret tt
                  else modify (fun st =>
                         mkState (routes st)
                           (set_prop name method (middlewaresMapped st)))
              | _, _ =>
                  modify (fun st =>
                    mkState (routes st) (set_prop name method (middlewaresMapped st)))
              end) l st in
  fst result = inl tt
  /\ routes (snd result) = routes st
  /\ forall name,
       assoc name (middlewaresMapped (snd result))
       = if mem name l && adopted MiddlewareService name
         then Some (get_plain (statics MiddlewareService) name)
         else assoc name (middlewaresMapped st).
Proof.
  cbv zeta. revert st. induction l as [|x l IH]; intros st; cbn [for_each].
  - repeat split.
  - unfold bind. pose proof (adopt_turn MiddlewareService x st) as T.
    cbv zeta in T. rewrite T. clear T.
    match goal with
    | |- context [for_each ?body l ?s] =>
        destruct (IH s) as (H1 & H2 & H3)
    end.
    split; [exact H1|]. split.
    + rewrite H2. now destruct (adopted MiddlewareService x).
    + intros name. rewrite H3. unfold mem at 2. cbn [existsb]. fold (mem name l).
      destruct (String.eqb_spec name x) as [->|ne]; cbn [orb].
      * destruct (adopted MiddlewareService x) eqn:A; cbn [middlewaresMapped].
        -- rewrite andb_true_r, assoc_set_prop, String.eqb_refl.
           now destruct (mem x l).
        -- now rewrite andb_false_r.
      * destruct (mem name l && adopted MiddlewareService name); [reflexivity|].
        destruct (adopted MiddlewareService x); [|reflexivity].
        cbn [middlewaresMapped]. rewrite assoc_set_prop.
        destruct (String.eqb_spec x name) as [->|_]; [congruence | reflexivity].
Qed.

(** X7. [getMiddlewaresMapped] never throws and leaves the routes alone.
    Afterwards the middleware table binds the name of every static
    property of [MiddlewareService] that is a function, the class itself
    apart, to that function; every other name keeps the binding it had.
    (A static function named [__proto__] is left aside: assigning it sets
    the prototype of the table.) *)
Theorem getMiddlewaresMapped_adopts_static_functions
    (MiddlewareService : class) (st : state) :
  let result := getMiddlewaresMapped MiddlewareService st in
  fst result = inl tt
  /\ routes (snd result) = routes st
  /\ forall name,
       let method := get_plain (statics MiddlewareService) name in
       (In name (keys (statics MiddlewareService)) ->
        name <> "__proto__" ->
        is_function method = true ->
        method <> self MiddlewareService ->
        assoc name (middlewaresMapped (snd result)) = Some method)
       /\ (~ (In name (keys (statics MiddlewareService))
              /\ is_function method = true
              /\ method <> self MiddlewareService) ->
           assoc name (middlewaresMapped (snd result))
           = assoc name (middlewaresMapped st)).
Proof.
  cbv zeta. unfold getMiddlewaresMapped.
  destruct (middlewaresMapped_after MiddlewareService
              (keys (statics MiddlewareService)) st) as (H1 & H2 & H3).
  split; [exact H1|]. split; [exact H2|]. intros name. rewrite H3. split.
  - intros Hin _ Hf Hs. rewrite (proj2 (mem_In _ _) Hin).
    now rewrite (proj2 (adopted_spec _ _) (conj Hf Hs)).
  - intros Hnot.
    destruct (mem name (keys (statics MiddlewareService))) eqn:Hm; [|reflexivity].
    destruct (adopted MiddlewareService name) eqn:Ha; [|reflexivity].
    elim Hnot. apply mem_In in Hm. apply adopted_spec in Ha. tauto.
Qed.

(** *** The handlers of a route, again *)

Lemma addValidation_keeps (middlewares : list handler) (methodName : string)
    (c : controller) (h : handler) :
  In h middlewares -> In h (addValidation middlewares methodName c).
Proof.
  intros H. unfold addValidation.
  destruct (_ && _); [apply in_or_app; now left | exact H].
Qed.

Lemma declared_middleware_is_handled (mapped : list (string * value))
    (methodName : string) (c : controller) (items : list value) (item : value)
    (h : handler) :
  get (get (VObj c) "middlewares") methodName = VArr items ->
  In item items ->
  In h (routeMiddleware mapped item) ->
  In h (getRouteMiddlewares mapped methodName c).
Proof.
  intros Hd Hitem Hh. unfold getRouteMiddlewares. apply addValidation_keeps.
  rewrite declares_nonempty_array, Hd.
  destruct items as [|x items]; [destruct Hitem|]. cbn [array_items].
  apply in_flat_map. now exists item.
Qed.

(** X8. After [getMiddlewaresMapped], a middleware that a controller
    declares for a method by the name of a static function of
    [MiddlewareService] is among the handlers of the route, as that
    function. *)
Theorem named_middleware_resolves_to_service_function
    (MiddlewareService : class) (st : state) (c : controller)
    (methodName name : string) (items : list value) :
  In name (keys (statics MiddlewareService)) ->
  name <> "__proto__" ->
  is_function (get_plain (statics MiddlewareService) name) = true ->
  get_plain (statics MiddlewareService) name <> self MiddlewareService ->
  get (get (VObj c) "middlewares") methodName = VArr items ->
  In (VStr name) items ->
  In (Middleware (get_plain (statics MiddlewareService) name))
     (getRouteMiddlewares
        (middlewaresMapped (snd (getMiddlewaresMapped MiddlewareService st)))
        methodName c).
Proof.
  intros Hin _ Hf Hs Hd Hitem.
  apply (declared_middleware_is_handled _ methodName c items (VStr name));
    try assumption.
  unfold getMiddlewaresMapped.
  destruct (middlewaresMapped_after MiddlewareService
              (keys (statics MiddlewareService)) st) as (_ & _ & H3).
  cbv zeta in H3. specialize (H3 name).
  rewrite (proj2 (mem_In _ _) Hin), (proj2 (adopted_spec _ _) (conj Hf Hs)) in H3.
  cbn [andb] in H3.
  match type of H3 with
  | assoc name ?t = _ =>
      assert (G : get_plain t name = get_plain (statics MiddlewareService) name)
        by (unfold get_plain at 1; now rewrite H3);
      clear H3; generalize dependent t
  end.
  intros table G.
  unfold routeMiddleware. cbn [typeof_is_FUNCTION is_function typeof_is_STRING
                                 is_string join_item].
  rewrite G.
  destruct (get_plain (statics MiddlewareService) name); try discriminate Hf.
  now left.
Qed.

(** X9. The middleware table is a plain object: a declared middleware name
    that is not in the table but names a function every object inherits
    ([toString], [valueOf], [constructor], which is [Object], ...) is not
    dropped with a warning; the inherited function becomes a handler of
    the route. *)
Theorem inherited_name_is_taken_for_a_middleware
    (mapped : list (string * value)) (c : controller)
    (methodName name : string) (items : list value) :
  In name object_prototype_names ->
  name <> "__proto__" ->
  assoc name mapped = None ->
  get (get (VObj c) "middlewares") methodName = VArr items ->
  In (VStr name) items ->
  is_function (inherited name) = true
  /\ In (Middleware (inherited name)) (getRouteMiddlewares mapped methodName c).
Proof.
  intros Hin Hne Hnone Hd Hitem.
  assert (F : is_function (inherited name) = true).
  { unfold inherited.
    destruct (String.eqb_spec name "__proto__") as [->|_]; [congruence|].
    destruct (name =? "constructor")%string; [reflexivity|].
    now rewrite (proj2 (mem_In _ _) Hin). }
  split; [exact F|].
  apply (declared_middleware_is_handled _ methodName c items (VStr name));
    try assumption.
  unfold routeMiddleware. cbn [typeof_is_FUNCTION is_function typeof_is_STRING
                                 is_string join_item].
  unfold get_plain. rewrite Hnone.
  destruct (inherited name); try discriminate F. now left.
Qed.

Lemma routeMiddleware_declared (mapped : list (string * value)) (item : value) :
  routeMiddleware mapped item = declared_handler mapped item.
Proof.
  destruct item; try reflexivity.
  unfold routeMiddleware, declared_handler.
  cbn [typeof_is_FUNCTION is_function typeof_is_STRING is_string join_item].
  cbv zeta.
  destruct (get_plain mapped s); cbn [is_function truthy andb];
    rewrite ?andb_false_r; reflexivity.
Qed.

(** X10. The handlers that precede the wrapped method on a route are
    exactly what the controller declares for the method, in the order of
    the declaration: each declared function, and for each declared name
    the function the middleware table yields under it (nothing for a name
    that yields none, or for any other item); then, exactly when the
    controller declares a non-empty validation array for the method, that
    array and the error checker, which is thus the last handler before
    the method. *)
Theorem route_handlers_are_the_declared_ones
    (mapped : list (string * value)) (methodName : string) (c : controller) :
  getRouteMiddlewares mapped methodName c
  = flat_map (fun item =>
                match item with
                | VFun _ => [Middleware item]
                | VStr name =>
                    match get_plain mapped name with
                    | VFun f => [Middleware (VFun f)]
                    | _ => []
                    end
                | _ => []
                end)
             (array_items (get (get (VObj c) "middlewares") methodName))
    ++ match get (get (VObj c) "validation") methodName with
       | VArr (first :: others) =>
           [Middleware (VArr (first :: others)); ErrorChecker]
       | _ => []
       end.
Proof.
  change (getRouteMiddlewares mapped methodName c
          = flat_map (declared_handler mapped)
              (array_items (get (get (VObj c) "middlewares") methodName))
            ++ validation_handlers c methodName).
  unfold getRouteMiddlewares, addValidation, validation_handlers.
  rewrite !declares_nonempty_array.
  assert (E : (if match get (get (VObj c) "middlewares") methodName with
                  | VArr (_ :: _) => true
                  | _ => false
                  end
               then flat_map (routeMiddleware mapped)
                      (array_items (get (get (VObj c) "middlewares") methodName))
               else [])
              = flat_map (declared_handler mapped)
                  (array_items (get (get (VObj c) "middlewares") methodName))).
  { destruct (get (get (VObj c) "middlewares") methodName)
      as [| | | | | | | |[|x items]|]; try reflexivity.
    cbn [array_items]. apply flat_map_ext. intros item.
    apply routeMiddleware_declared. }
  rewrite E.
  destruct (get (get (VObj c) "validation") methodName)
    as [| | | | | | | |[|x items]|]; try (now rewrite app_nil_r).
  reflexivity.
Qed.

(** X12. [build] fills the middleware table and then only adds routes:
    the routes the router had stay in front, and every route added is
    under one of the verbs get, post, put, patch, delete at a path that
    starts with the default API path and a slash; this also holds when the
    build stops with a throw. *)
Theorem build_adds_routes_below_the_api_path (MiddlewareService : class)
    (defaultControllerFolderPath : node) (defaultApiPath : string) (st : state) :
  let st' :=
    snd (build snakeCase camelCase upperCaseFirst MiddlewareService
           defaultControllerFolderPath defaultApiPath st) in
  middlewaresMapped st'
  = middlewaresMapped (snd (getMiddlewaresMapped MiddlewareService st))
  /\ exists added,
      routes st' = routes st ++ added
      /\ forall r, In r added ->
           In (verb r) ["get"; "post"; "put"; "patch"; "delete"]
           /\ String.prefix (defaultApiPath ++ "/") (path r) = true.
Proof.
  cbv zeta. unfold build, bind.
  destruct (middlewaresMapped_after MiddlewareService
              (keys (statics MiddlewareService)) st) as (H1 & H2 & _).
  cbv zeta in H1, H2. fold (getMiddlewaresMapped MiddlewareService) in H1, H2.
  destruct (getMiddlewaresMapped MiddlewareService st) as [[u|e] st1];
    cbn [fst snd] in *; [|discriminate H1].
  assert (E : extends (below (defaultApiPath ++ "/")) st1
                (snd (buildSubFolderRoutes snakeCase camelCase upperCaseFirst
                        defaultControllerFolderPath defaultApiPath st1))).
  { destruct defaultControllerFolderPath as [exports|entries|exports code];
      cbn [buildSubFolderRoutes];
      [apply extends_refl | apply buildFolders_extends | apply extends_refl]. }
  destruct E as (Hm & added & Hr & Hall).
  split; [exact Hm|]. exists added. split; [now rewrite Hr, H2|].
  intros r Hin. exact (proj1 (Forall_forall _ _) Hall r Hin).
Qed.

(** *** Verb and sub-path *)

Lemma drop_append (a t : string) : Str.drop (String.length a) (a ++ t) = t.
Proof. induction a as [|c a IH]; [now destruct t | exact IH]. Qed.

Lemma first_segment_has_no_separator (sep : ascii) (s : string) :
  Str.occurs sep (Str.first_segment sep s) = false.
Proof.
  induction s as [|c s IH]; [reflexivity|]. cbn [Str.first_segment].
  destruct (Ascii.eqb c sep) eqn:E; [reflexivity|].
  cbn [Str.occurs]. now rewrite E, IH.
Qed.

(** X13. The verb and the sub-path of a custom route recompose the
    snake_case name of the method: [verb_subpath] when the name has an
    underscore; a method named by a bare word ([get], [post], ...) has that
    word both as its verb and as its sub-path.  The verb never holds an
    underscore. *)
Theorem verb_and_sub_path_recompose (methodName : string) :
  let name := snakeCase methodName in
  let requestType := getCustomRouteRequestType snakeCase methodName in
  let subPath := Str.replace_first (requestType ++ "_") EmptyString name in
  Str.occurs "_" requestType = false
  /\ (Str.occurs "_" name = true -> name = (requestType ++ "_" ++ subPath)%string)
  /\ (Str.occurs "_" name = false -> requestType = name /\ subPath = name).
Proof.
  intros name requestType subPath.
  unfold requestType, getCustomRouteRequestType. fold name.
  split; [apply first_segment_has_no_separator|].
  subst subPath requestType. unfold getCustomRouteRequestType. fold name.
  rewrite (replace_first_segment "_" name).
  destruct (first_segment_cases "_" name) as [[H1 H2]|H].
  - split; [intros H; congruence|]. intros _. split; [exact H2|].
    unfold Str.remove_leading. now rewrite (prefix_needs_separator "_" _ _ H1).
  - split.
    + intros _. unfold Str.remove_leading. rewrite H.
      destruct (prefix_split _ _ H) as (t & Ht).
      set (pat := (Str.first_segment "_" name ++ "_")%string) in *.
      assert (D : Str.drop (String.length pat) name = t)
        by (rewrite Ht; apply drop_append).
      rewrite D. etransitivity; [exact Ht|]. unfold pat. apply append_assoc.
    + intros Hno. now rewrite (prefix_needs_separator "_" _ _ Hno) in H.
Qed.

(** *** One request *)


End Properties.

(* ===================================================================== *)
(** ** The properties at work *)
(* ===================================================================== *)





(** A method named [toString] stops the build before [list] is reached:
    [predefinedRoutes['toString']] is the inherited function, not a verb. *)
Lemma inherited_name_stops_the_build :
  build_in "users" (folder "UsersController" shadowing)
  = (inr (TypeError "router[requestType] is not a function"), fresh).
Proof. reflexivity. Qed.



(** [getProfile] declares two parameters: it is served at [profile] below
    the controller, followed by both, in their order. *)
Lemma profile_sub_path_with_params :
  buildCustomRoute ChangeCase.snakeCase users "/api/users" "getProfile" fresh
  = (inl tt,
     mkState [mkRoute "get" "/api/users/profile/:userId/:section"
                [ControllerMethod users "getProfile"]] []).
Proof.
  apply (custom_route_sub_path ChangeCase.snakeCase users "/api/users"
           "getProfile" ["userId"; "section"] fresh).
  - vm_compute. tauto.
  - reflexivity.
Defined.

(** The folder [admin] has no controller of its own: its sub-folder
    [users] is built below [/api/admin], and the plain file is skipped. *)
Lemma admin_is_a_namespace :
  build_in "admin" admin
  = (inl tt,
     mkState [mkRoute "get" "/api/admin/users/:usersId"
                [ControllerMethod show_only "show"]] []).
Proof.
  unfold build_in, admin.
  destruct (unloadable_folder_is_namespace
              ChangeCase.snakeCase ChangeCase.camelCase ChangeCase.upperCaseFirst
              "admin"
              [("README.md", File None); ("users", folder "UsersController" show_only)]
              "/api") as [-> ->].
  - reflexivity.
  - reflexivity.
Defined.



(** A result whose [hasOwnProperty] is a field of the data is not sent:
    the call on it throws and the error goes to [next]. *)
Lemma shadowed_result_goes_to_next :
  getControllerMethod no_function (returns shadowed) users "show" no_request
    untouched
  = (inl tt,
     mkCtx 200 []
       [Some (TypeError "result.hasOwnProperty is not a function")]).
Proof. reflexivity. Qed.

(** A result whose own [hasOwnProperty] is a function that answers
    [false] keeps its password. *)
Lemma denied_password_is_sent :
  resultSend denies guarded_record untouched
  = (inl tt, mkCtx 200 [guarded_record] []).
Proof. reflexivity. Qed.

(** [undefined] becomes ['ok']. *)
Lemma undefined_result_sends_ok :
  getControllerMethod no_function (returns VUndefined) users "create" no_request
    untouched
  = (inl tt, mkCtx 200 [VStr "ok"] []).
Proof.
  apply (falsy_result_defaults_to_ok_except_zero no_function (returns VUndefined)
           users "create" no_request untouched untouched VUndefined).
  - reflexivity.
  - reflexivity.
Defined.

(** The falsy result [0] is sent as [0], not as ['ok']. *)
Lemma zero_result_is_sent_as_zero :
  truthy (VNum 0) = false
  /\ getControllerMethod no_function (returns (VNum 0)) users "show" no_request
       untouched
     = (inl tt, mkCtx 200 [VNum 0] [])
  /\ sent (snd (getControllerMethod no_function (returns (VNum 0)) users "show"
                  no_request untouched))
     <> [VStr "ok"].
Proof. repeat split; try reflexivity. discriminate. Qed.

(** A thrown error reaches [next], and nothing is sent. *)
Lemma thrown_string_goes_to_next :
  getControllerMethod no_function (throws (Thrown (VStr "boom"))) users "show"
    no_request untouched
  = (inl tt, mkCtx 200 [] [Some (Thrown (VStr "boom"))]).
Proof.
  apply (thrown_error_goes_to_next no_function (throws (Thrown (VStr "boom")))
           users "show" no_request untouched untouched (Thrown (VStr "boom"))).
  reflexivity.
Defined.



(** The first of two validation errors makes the message. *)
Lemma first_validation_error_is_thrown :
  errorChecker invalid_request untouched
  = (inr (ValidationError "email is not valid"), untouched)
  /\ errorChecker no_request untouched = (inl tt, mkCtx 200 [] [None]).
Proof.
  destruct (errorChecker_throws_iff_errors invalid_request untouched)
    as (_ & Hthrow & _).
  destruct (errorChecker_throws_iff_errors no_request untouched) as (_ & _ & Hnext).
  split.
  - apply (Hthrow (mkError "email" "is not valid") [mkError "name" "is required"]).
    reflexivity.
  - apply Hnext. reflexivity.
Defined.

(** A link to a file is no file for [lstat]: the builder takes it for a
    folder and the listing throws, before the next entry is built. *)
Lemma link_to_a_file_stops_the_build :
  buildSubFolderRoutes ChangeCase.snakeCase ChangeCase.camelCase
    ChangeCase.upperCaseFirst linked "/api" fresh
  = (inr (FsError "ENOTDIR"), fresh).
Proof. reflexivity. Qed.

(** [guarded] declares a name of the table, a function, an unknown name and
    a number for [create], and a validation chain. *)
Lemma handlers_of_guarded :
  getRouteMiddlewares [("auth", VFun "auth")] "create" guarded
  = [ Middleware (VFun "auth"); Middleware (VFun "inline");
      Middleware (VArr [VFun "checkBody"]); ErrorChecker ].
Proof. reflexivity. Qed.

(** A folder of notes adds no route. *)
Lemma notes_register_nothing :
  buildSubFolderRoutes ChangeCase.snakeCase ChangeCase.camelCase
    ChangeCase.upperCaseFirst notes "/api" fresh
  = (inl tt, fresh).
Proof.
  apply (folder_of_files_registers_nothing
           ChangeCase.snakeCase ChangeCase.camelCase ChangeCase.upperCaseFirst
           [("README.md", File None); ("helpers.ts", File (Some []))] "/api" fresh).
  repeat constructor.
Defined.

(** The controller of [users] loads: the sub-folder [admins] is left out,
    every route serves a method of [UsersController]. *)
Lemma users_subfolder_is_left_out :
  exists added,
    routes (snd (build_in "users" users_with_subfolder)) = routes fresh ++ added
    /\ forall r, In r added ->
         exists methodName,
           In methodName (keys users)
           /\ is_function (get (VObj users) methodName) = true
           /\ ~ In methodName ["routeMiddlewares"; "routeValidation"; "routeParams"]
           /\ handlers r
              = getRouteMiddlewares (middlewaresMapped fresh) methodName users
                  ++ [ControllerMethod users methodName].
Proof.
  apply (loaded_controller_adds_its_methods_only
           ChangeCase.snakeCase ChangeCase.camelCase ChangeCase.upperCaseFirst
           "users"
           [ ("UsersController.ts", File (Some [("UsersController", users)]));
             ("admins", folder "AdminsController" show_only) ]
           [("UsersController", users)] users "/api" fresh).
  - reflexivity.
  - reflexivity.
Defined.

(** [UsersController.ts] exports [Users], not [UsersController]. *)
Lemma misnamed_export_throws :
  build_in "users" misnamed
  = (inr (TypeError "controllerData[className] is not a constructor"), fresh).
Proof.
  apply (missing_export_stops_the_build
           ChangeCase.snakeCase ChangeCase.camelCase ChangeCase.upperCaseFirst
           "users"
           [ ("UsersController.ts", File (Some [("Users", show_only)]));
             ("admins", folder "AdminsController" show_only) ]
           [("Users", show_only)] "/api" fresh).
  - reflexivity.
  - reflexivity.
Defined.


(** [guarded] names [auth] for [create]: the route gets the static function
    [auth] of the service. *)
Lemma auth_resolves_for_guarded :
  In (Middleware (VFun "auth"))
     (getRouteMiddlewares
        (middlewaresMapped (snd (getMiddlewaresMapped services fresh)))
        "create" guarded).
Proof.
  apply (named_middleware_resolves_to_service_function services fresh guarded
           "create" "auth"
           [VStr "auth"; VFun "inline"; VStr "unknown"; VNum 3]).
  - vm_compute. tauto.
  - discriminate.
  - reflexivity.
  - discriminate.
  - reflexivity.
  - simpl. tauto.
Defined.

(** A controller that names [toString] or [constructor] as a middleware
    gets the inherited function as a handler, with an empty table. *)
Lemma inherited_names_become_handlers :
  In (Middleware (VFun "function toString() { [native code] }"))
     (getRouteMiddlewares [] "list" borrowing)
  /\ In (Middleware (VFun "function Object() { [native code] }"))
       (getRouteMiddlewares [] "list" borrowing).
Proof.
  split.
  - apply (inherited_name_is_taken_for_a_middleware [] borrowing
             "list" "toString" [VStr "toString"; VStr "constructor"]).
    + simpl. tauto.
    + discriminate.
    + reflexivity.
    + reflexivity.
    + simpl. tauto.
  - apply (inherited_name_is_taken_for_a_middleware [] borrowing
             "list" "constructor" [VStr "toString"; VStr "constructor"]).
    + simpl. tauto.
    + discriminate.
    + reflexivity.
    + reflexivity.
    + simpl. tauto.
Defined.
